(** * Timer: a shallow embedding of [src/timer.hpp]

    The class template [Timer<DurationType, EnableStats>] is embedded for its
    default [DurationType = duration<double>] (a count of seconds held in a
    C++ [double]).  The two preprocessor variants ([ENABLE_RT_SCHEDULER]
    defined or not) and the template flag [EnableStats] are boolean
    parameters of the model.  Everything the class reads from the operating
    system (clock readings, return values of the blocking calls) is an
    explicit input of the method that reads it.

    Platform: LP64 Linux with libstdc++ ([system_clock] counts nanoseconds
    in a 64-bit integer), [double] is IEEE 754 binary64 evaluated operation
    by operation (no fused multiply-add), and [pow(x, 2)] is [x * x]. *)

From Stdlib Require Import ZArith Floats Lia.
From stdpp Require Import gmap strings.

Open Scope Z_scope.

(** ** Machine integers

    [long], [time_t] and [suseconds_t] are 64-bit signed, [size_t] and
    [unsigned long long] are 64-bit unsigned (LP64).  Values are kept in [Z]
    and the wrap-around is written out. *)

Definition NSEC_PER_SEC : Z := 1000000000.

Definition wrap_u64 (z : Z) : Z := z mod 2 ^ 64.

Definition wrap_s64 (z : Z) : Z := (z + 2 ^ 63) mod 2 ^ 64 - 2 ^ 63.

Definition LONG_MIN : Z := - 2 ^ 63.
Definition LONG_MAX : Z := 2 ^ 63 - 1.

(** ** The arithmetic of [double]

    The operations the class applies to [double] values.  The model is
    written once over this interface; [binary64] below is the instance the
    compiled program runs on.  What is proved over the interface uses no
    property of the arithmetic, and holds of [binary64] with its rounding,
    its infinities and its NaN. *)

Class Arith (D : Type) := {
  d_of_Z : Z -> D;          (* conversion of an integer to [double] *)
  d_to_long : D -> Z;       (* [static_cast<long>] of a [double] *)
  d_inf : D;                (* [INFINITY] *)
  d_add : D -> D -> D;
  d_sub : D -> D -> D;
  d_mul : D -> D -> D;
  d_div : D -> D -> D;
  d_sqrt : D -> D;          (* [sqrt] *)
  d_pow2 : D -> D;          (* [pow(x, 2)] *)
  d_ltb : D -> D -> bool;   (* [<] *)
  d_leb : D -> D -> bool;   (* [<=] *)
}.

Declare Scope dbl_scope.
Delimit Scope dbl_scope with dbl.
Notation "x + y" := (d_add x y) : dbl_scope.
Notation "x - y" := (d_sub x y) : dbl_scope.
Notation "x * y" := (d_mul x y) : dbl_scope.
Notation "x / y" := (d_div x y) : dbl_scope.
Notation "x <? y" := (d_ltb x y) : dbl_scope.
Notation "x <=? y" := (d_leb x y) : dbl_scope.

(** *** IEEE 754 binary64, round to nearest even *)

Module Binary64.

(** Correctly rounded conversion of an integer. *)
Definition of_Z (z : Z) : float :=
  SF2Prim (binary_normalize prec emax z 0 false).

(** The integer part of a finite value (truncation toward zero). *)
Definition trunc (f : float) : option Z :=
  match Prim2SF f with
  | S754_zero _ => Some 0
  | S754_finite s m e =>
      let a := if 0 <=? e then Z.pos m * 2 ^ e else Z.pos m / 2 ^ (- e) in
      Some (if s then - a else a)
  | S754_infinity _ | S754_nan => None
  end.

(** [static_cast<long>]: the integer part when it fits.  For a value out
    of range the C++ standard leaves the result undefined; the model takes
    what the AArch64 conversion instruction ([fcvtzs]) gives: the nearest
    bound, and 0 for a NaN. *)
Definition to_long (f : float) : Z :=
  match trunc f with
  | Some z => Z.max LONG_MIN (Z.min LONG_MAX z)
  | None =>
      if PrimFloat.is_nan f then 0
      else if PrimFloat.get_sign f then LONG_MIN else LONG_MAX
  end.

End Binary64.

#[export] Instance binary64 : Arith float := {|
  d_of_Z := Binary64.of_Z;
  d_to_long := Binary64.to_long;
  d_inf := PrimFloat.infinity;
  d_add := PrimFloat.add;
  d_sub := PrimFloat.sub;
  d_mul := PrimFloat.mul;
  d_div := PrimFloat.div;
  d_sqrt := PrimFloat.sqrt;
  d_pow2 := fun x => PrimFloat.mul x x;
  d_ltb := PrimFloat.ltb;
  d_leb := PrimFloat.leb;
|}.

(** ** POSIX time structures and the process state the class touches *)

Module timespec.
Record t : Type := mk { tv_sec : Z; tv_nsec : Z }.
(** The instant or duration a [timespec] denotes, in nanoseconds. *)
Definition to_ns (ts : t) : Z := tv_sec ts * NSEC_PER_SEC + tv_nsec ts.
End timespec.

Module timeval.
Record t : Type := mk { tv_sec : Z; tv_usec : Z }.
(** [timerclear] *)
Definition clear : t := mk 0 0.
Definition to_us (tv : t) : Z := tv_sec tv * 1000000 + tv_usec tv.
End timeval.

Record itimerval : Type := mk_itimerval {
  it_interval : timeval.t;
  it_value : timeval.t
}.

(** Disposition of [SIGALRM]: the default one, or the empty handler that
    [start] installs. *)
Inductive sighandler : Type :=
| SIG_DFL
| empty_handler.

(** The process-wide resources: the [ITIMER_REAL] interval timer and the
    disposition of [SIGALRM]. *)
Record OS : Type := mk_OS {
  os_itimer : itimerval;
  os_sigalrm : sighandler
}.

(** The blocking call a [wait] issues. *)
Inductive blocking_call : Type :=
| clock_nanosleep_abstime (deadline : timespec.t)
| nanosleep (rqtp : timespec.t).

(** A method returns a value or throws a [TimerError] with a message. *)
Inductive outcome (A : Type) : Type :=
| Return (a : A)
| Throw (message : string).
Arguments Return {A} a.
Arguments Throw {A} message.

Inductive TimerErrorType : Type :=
| TIMER_OK
| TIMER_ERR_SIGNAL_LATE
| TIMER_ERR_MAX_WAIT_EXCEEDED
| TIMER_ERR_INTERRUPTED.

Definition TimerErrorType_eqb (a b : TimerErrorType) : bool :=
  match a, b with
  | TIMER_OK, TIMER_OK
  | TIMER_ERR_SIGNAL_LATE, TIMER_ERR_SIGNAL_LATE
  | TIMER_ERR_MAX_WAIT_EXCEEDED, TIMER_ERR_MAX_WAIT_EXCEEDED
  | TIMER_ERR_INTERRUPTED, TIMER_ERR_INTERRUPTED => true
  | _, _ => false
  end.

#[global] Instance TimerErrorType_eq_dec : EqDecision TimerErrorType.
Proof. solve_decision. Defined.

(** The enumerators' values. *)
Definition TimerErrorType_value (e : TimerErrorType) : Z :=
  match e with
  | TIMER_OK => 0
  | TIMER_ERR_SIGNAL_LATE => -1
  | TIMER_ERR_MAX_WAIT_EXCEEDED => -2
  | TIMER_ERR_INTERRUPTED => -3
  end.

(** What [start] reads from the system: the [system_clock] reading (in
    nanoseconds since the epoch), the [CLOCK_REALTIME] reading of
    [clock_gettime], the return value of [setitimer] and the text of
    [strerror(errno)]. *)
Record StartEnv : Type := mk_StartEnv {
  se_now : Z;
  se_clock : timespec.t;
  se_setitimer : Z;
  se_strerror : string
}.

(** What one [wait] reads from the system: the [system_clock] reading before
    the blocking call, the return value of the blocking call, and the
    [system_clock] reading after it. *)
Record WaitEnv : Type := mk_WaitEnv {
  we_pre_sleep : Z;
  we_sleep_ret : Z;
  we_now : Z
}.

(** ** The class *)

Section Timer.

Context {D : Type} {AD : Arith D}.

(** [#ifdef ENABLE_RT_SCHEDULER] and the template argument [EnableStats]. *)
Variable ENABLE_RT_SCHEDULER : bool.
Variable EnableStats : bool.

(** The attributes.  [_interval] and [_max_wait] hold the count of a
    [duration<double>], as does [_last].  (The unused attribute [_stats]
    is left out.) *)
Record Timer : Type := mk_Timer {
  _interval : D;
  _max_wait : D;
  _rep : itimerval;
  _rqtp : timespec.t;
  _n : Z;
  _min : D;
  _max : D;
  _mean : D;
  _sd : D;
  _tet : D;
  _started : bool;
  _first : bool;
  _now_ts : timespec.t;
  _last : D;
  _dt : D
}.

Definition set_n (v : Z) (t : Timer) : Timer :=
  mk_Timer (_interval t) (_max_wait t) (_rep t) (_rqtp t) v (_min t)
    (_max t) (_mean t) (_sd t) (_tet t) (_started t) (_first t)
    (_now_ts t) (_last t) (_dt t).
Definition set_min (v : D) (t : Timer) : Timer :=
  mk_Timer (_interval t) (_max_wait t) (_rep t) (_rqtp t) (_n t) v
    (_max t) (_mean t) (_sd t) (_tet t) (_started t) (_first t)
    (_now_ts t) (_last t) (_dt t).
Definition set_max (v : D) (t : Timer) : Timer :=
  mk_Timer (_interval t) (_max_wait t) (_rep t) (_rqtp t) (_n t) (_min t)
    v (_mean t) (_sd t) (_tet t) (_started t) (_first t)
    (_now_ts t) (_last t) (_dt t).
Definition set_mean (v : D) (t : Timer) : Timer :=
  mk_Timer (_interval t) (_max_wait t) (_rep t) (_rqtp t) (_n t) (_min t)
    (_max t) v (_sd t) (_tet t) (_started t) (_first t)
    (_now_ts t) (_last t) (_dt t).
Definition set_sd (v : D) (t : Timer) : Timer :=
  mk_Timer (_interval t) (_max_wait t) (_rep t) (_rqtp t) (_n t) (_min t)
    (_max t) (_mean t) v (_tet t) (_started t) (_first t)
    (_now_ts t) (_last t) (_dt t).
Definition set_tet (v : D) (t : Timer) : Timer :=
  mk_Timer (_interval t) (_max_wait t) (_rep t) (_rqtp t) (_n t) (_min t)
    (_max t) (_mean t) (_sd t) v (_started t) (_first t)
    (_now_ts t) (_last t) (_dt t).
Definition set_started (v : bool) (t : Timer) : Timer :=
  mk_Timer (_interval t) (_max_wait t) (_rep t) (_rqtp t) (_n t) (_min t)
    (_max t) (_mean t) (_sd t) (_tet t) v (_first t)
    (_now_ts t) (_last t) (_dt t).
Definition set_first (v : bool) (t : Timer) : Timer :=
  mk_Timer (_interval t) (_max_wait t) (_rep t) (_rqtp t) (_n t) (_min t)
    (_max t) (_mean t) (_sd t) (_tet t) (_started t) v
    (_now_ts t) (_last t) (_dt t).
Definition set_now_ts (v : timespec.t) (t : Timer) : Timer :=
  mk_Timer (_interval t) (_max_wait t) (_rep t) (_rqtp t) (_n t) (_min t)
    (_max t) (_mean t) (_sd t) (_tet t) (_started t) (_first t)
    v (_last t) (_dt t).
Definition set_last (v : D) (t : Timer) : Timer :=
  mk_Timer (_interval t) (_max_wait t) (_rep t) (_rqtp t) (_n t) (_min t)
    (_max t) (_mean t) (_sd t) (_tet t) (_started t) (_first t)
    (_now_ts t) v (_dt t).
Definition set_dt (v : D) (t : Timer) : Timer :=
  mk_Timer (_interval t) (_max_wait t) (_rep t) (_rqtp t) (_n t) (_min t)
    (_max t) (_mean t) (_sd t) (_tet t) (_started t) (_first t)
    (_now_ts t) (_last t) v.

(** [std::min(a, b)] and [std::max(a, b)] on [double]. *)
Definition std_min (a b : D) : D := if (b <? a)%dbl then b else a.
Definition std_max (a b : D) : D := if (a <? b)%dbl then b else a.

(** A [system_clock] reading (a count of nanoseconds) converted to
    [duration<double>]: the count as a [double], divided by 1e9. *)
Definition to_seconds (ns : Z) : D :=
  (d_of_Z ns / d_of_Z NSEC_PER_SEC)%dbl.

(** [duration_cast] of a [duration<double>] to [seconds], [microseconds]
    and [nanoseconds]: the count times the ratio, as a [long]. *)
Definition cast_seconds (d : D) : Z := d_to_long d.
Definition cast_microseconds (d : D) : Z :=
  d_to_long (d * d_of_Z 1000000)%dbl.
Definition cast_nanoseconds (d : D) : Z :=
  d_to_long (d * d_of_Z NSEC_PER_SEC)%dbl.

(** [time_to_time_struct] at [S = struct timeval]: the subtraction is done
    in [double] (the literal [1E6] is one) and converted back. *)
Definition time_to_timeval (d : D) : timeval.t :=
  let sec := cast_seconds d in
  timeval.mk sec
    (d_to_long (d_of_Z (cast_microseconds d) - d_of_Z sec * d_of_Z 1000000)%dbl).

(** [time_to_time_struct] at [S = struct timespec]. *)
Definition time_to_timespec (d : D) : timespec.t :=
  let sec := cast_seconds d in
  timespec.mk sec
    (d_to_long (d_of_Z (cast_nanoseconds d) - d_of_Z sec * d_of_Z NSEC_PER_SEC)%dbl).

(** The member initialisers and the body of the constructor, for arguments
    of type [duration<double>].  [_now_ts] and [_last] are left
    uninitialised: their indeterminate values are the last two arguments. *)
Definition Timer_init (interval max_wait : D)
    (u_now_ts : timespec.t) (u_last : D) : Timer :=
  {| _interval := interval;
     _max_wait := max_wait;
     _rep := {| it_interval := time_to_timeval interval;
                it_value := time_to_timeval interval |};
     _rqtp := time_to_timespec max_wait;
     _n := 0;
     _min := d_inf;
     _max := d_of_Z 0;
     _mean := d_of_Z 0;
     _sd := d_of_Z 0;
     _tet := d_of_Z 0;
     _started := false;
     _first := true;
     _now_ts := u_now_ts;
     _last := u_last;
     _dt := d_of_Z 0 |}.

(** The constructor: no statement of it throws. *)
Definition Timer_ctor (interval max_wait : D)
    (u_now_ts : timespec.t) (u_last : D) : outcome Timer :=
  Return (Timer_init interval max_wait u_now_ts u_last).

(** The interval in nanoseconds, as [timespec_add_interval] computes it. *)
Definition interval_ns (t : Timer) : Z := cast_nanoseconds (_interval t).

(** [timespec_add_interval]: [NSEC_PER_SEC] is an [unsigned long long], so
    the quotient and the remainder are taken on the unsigned value. *)
Definition timespec_add_interval (t : Timer) (ts : timespec.t) : timespec.t :=
  let dns := interval_ns t in
  let nsec := wrap_s64 (timespec.tv_nsec ts + dns) in
  let sec :=
    wrap_s64 (wrap_u64 (wrap_u64 (timespec.tv_sec ts)
                        + wrap_u64 nsec / NSEC_PER_SEC)) in
  timespec.mk sec (wrap_s64 (wrap_u64 nsec mod NSEC_PER_SEC)).

Definition start (t : Timer) (os : OS) (e : StartEnv)
    : outcome unit * Timer * OS :=
  let t := set_last (to_seconds (se_now e)) t in
  if ENABLE_RT_SCHEDULER then
    let t := set_now_ts (se_clock e) t in
    let t := set_now_ts (timespec_add_interval t (_now_ts t)) t in
    (Return tt, set_started true t, os)
  else if negb (se_setitimer e =? 0) then
    (Throw (se_strerror e), t, os)
  else
    (Return tt, set_started true t,
     {| os_itimer := _rep t; os_sigalrm := empty_handler |}).

Definition stop (t : Timer) (os : OS) : outcome unit * Timer * OS :=
  let timer := {| it_interval := timeval.clear; it_value := timeval.clear |} in
  let os := {| os_itimer := timer; os_sigalrm := SIG_DFL |} in
  let t := set_n 0 t in
  let t := set_min d_inf t in
  let t := set_max (d_of_Z 0) t in
  let t := set_mean (d_of_Z 0) t in
  let t := set_tet (d_of_Z 0) t in
  let t := set_sd (d_of_Z 0) t in
  let t := set_started false t in
  let t := set_first true t in
  (Return tt, t, os).

Definition dt (t : Timer) : D := _dt t.

Definition update_stats (x : D) (t : Timer) : Timer :=
  let t := set_n (wrap_u64 (_n t + 1)) t in
  if _n t <=? 1 then
    let t := set_mean x t in
    let t := set_tet (d_of_Z 0) t in
    set_sd (d_of_Z 0) t
  else
    let n1 := d_of_Z (wrap_u64 (_n t - 1)) in
    let n2 := d_of_Z (wrap_u64 (_n t - 2)) in
    let nr := (d_of_Z 1 / d_of_Z (_n t))%dbl in
    let n1r := (d_of_Z 1 / n1)%dbl in
    let nn1 := (d_of_Z (_n t) / n1)%dbl in
    let t := set_mean (nr * (n1 * _mean t + x))%dbl t in
    let t := set_tet (nr * (n1 * _tet t + x))%dbl t in
    set_sd (d_sqrt (n1r * (n2 * d_pow2 (_sd t)
                           + nn1 * d_pow2 (_mean t - x)))%dbl) t.

(** The blocking call of [wait]. *)
Definition wait_blocking_call (t : Timer) : blocking_call :=
  if ENABLE_RT_SCHEDULER then clock_nanosleep_abstime (_now_ts t)
  else nanosleep (_rqtp t).

(** The value of [ret] after the blocking call returned [r]. *)
Definition sleep_class (r : Z) : TimerErrorType :=
  if ENABLE_RT_SCHEDULER then
    if negb (r =? 0) then TIMER_ERR_INTERRUPTED else TIMER_OK
  else
    if r =? 0 then TIMER_ERR_SIGNAL_LATE else TIMER_OK.

Definition wait (t : Timer) (e : WaitEnv) : outcome TimerErrorType * Timer :=
  if negb (_started t) then (Throw "Timer: not started", t)
  else
    let t := set_dt (d_of_Z 0) t in
    let pre_sleep := to_seconds (we_pre_sleep e) in
    let ret := sleep_class (we_sleep_ret e) in
    let t :=
      if ENABLE_RT_SCHEDULER
      then set_now_ts (timespec_add_interval t (_now_ts t)) t
      else t in
    let now := to_seconds (we_now e) in
    let t := set_dt (now - _last t)%dbl t in
    let t :=
      if EnableStats then
        let t := set_tet (_dt t - (now - pre_sleep))%dbl t in
        let t :=
          if negb (_first t) then
            let t := set_min (std_min (_min t) (_dt t)) t in
            let t := set_max (std_max (_max t) (_dt t)) t in
            if TimerErrorType_eqb ret TIMER_OK
            then update_stats (_dt t) t
            else t
          else t in
        set_first false t
      else t in
    let ret :=
      if (_max_wait t <? _dt t)%dbl then TIMER_ERR_MAX_WAIT_EXCEEDED
      else ret in
    let t := set_last now t in
    (Return ret, t).

Definition stats (t : Timer) : outcome (gmap string D) :=
  if EnableStats then
    Return (list_to_map
              [("n", d_of_Z (_n t)); ("min", _min t); ("max", _max t);
               ("mean", _mean t); ("sd", _sd t); ("tet", _tet t)])
  else Throw "Timer: stats not enabled".

(** A loop of [wait] calls, one per element of [es]; the classifications
    (or the error) of the calls are collected in order. *)
Fixpoint wait_loop (t : Timer) (es : list WaitEnv)
    : list (outcome TimerErrorType) * Timer :=
  match es with
  | [] => ([], t)
  | e :: es' =>
      let '(r, t1) := wait t e in
      let '(rs, t2) := wait_loop t1 es' in
      (r :: rs, t2)
  end.

End Timer.


(** ** Call sequences *)

Section Runs.

Context {D : Type} {AD : Arith D}.
Variable ENABLE_RT_SCHEDULER : bool.
Variable EnableStats : bool.

(** A call of one of the three methods that change the state, with what it
    reads from the system. *)
Inductive call : Type :=
| call_start (e : StartEnv)
| call_stop
| call_wait (e : WaitEnv).

(** The state after a call; an exception leaves the state the method had
    reached when it threw. *)
Definition step (s : Timer * OS) (c : call) : Timer * OS :=
  match c with
  | call_start e =>
      let '(_, t, os) := start ENABLE_RT_SCHEDULER s.1 s.2 e in (t, os)
  | call_stop => let '(_, t, os) := stop s.1 s.2 in (t, os)
  | call_wait e => ((wait ENABLE_RT_SCHEDULER EnableStats s.1 e).2, s.2)
  end.

Definition run (s : Timer * OS) (cs : list call) : Timer * OS :=
  fold_left step cs s.

(** A timer as the constructor or [stop] leaves it. *)
Definition fresh (t : Timer) : Prop :=
  (exists interval max_wait u_now_ts u_last,
      Timer_ctor interval max_wait u_now_ts u_last = Return t)
  \/ (exists t' os, (stop t' os).1.2 = t).

(** A timer that is not started, with its next sample the first and its
    accumulator at the initial values. *)
Definition idle (t : Timer) : Prop :=
  _started t = false /\ _first t = true /\ _n t = 0 /\ _min t = d_inf /\
  _max t = d_of_Z 0 /\ _mean t = d_of_Z 0 /\ _sd t = d_of_Z 0 /\
  _tet t = d_of_Z 0.

(** The number of calls of [es] whose blocking call is classified
    [TIMER_OK]. *)
Definition count_ok (es : list WaitEnv) : Z :=
  Z.of_nat (length (filter
    (fun e => sleep_class ENABLE_RT_SCHEDULER (we_sleep_ret e) = TIMER_OK)
    es)).

End Runs.


(** ** Concrete timers and readings (on [binary64]) *)

(** The process state before the timer is used. *)
Definition os_init : OS :=
  {| os_itimer := mk_itimerval timeval.clear timeval.clear;
     os_sigalrm := SIG_DFL |}.

(** [Timer<duration<double>, true> t(1s, 1.5s)]. *)
Definition demo_timer : Timer (D := float) :=
  Timer_init 1%float 1.5%float (timespec.mk 0 0) 0%float.

(** [start] at the epoch, [setitimer] succeeding. *)
Definition demo_start : StartEnv :=
  {| se_now := 0; se_clock := timespec.mk 0 0;
     se_setitimer := 0; se_strerror := "" |}.

(** [demo_timer] started, in the build named by [rt]. *)
Definition demo_started (rt : bool) : Timer (D := float) :=
  (start rt demo_timer os_init demo_start).1.2.

(** A cycle ending [k] seconds after the epoch, entered a quarter of a
    second after the previous one ended, whose blocking call returned
    [r]. *)
Definition cycle (k : Z) (r : Z) : WaitEnv :=
  {| we_pre_sleep := (k - 1) * NSEC_PER_SEC + 250000000;
     we_sleep_ret := r;
     we_now := k * NSEC_PER_SEC |}.

(** ** The task-execution-time estimate *)

Section Tet.

Context {D : Type} {AD : Arith D}.

(** The estimate [wait] computes in a cycle entered in state [t]:
    [_dt - (now - pre_sleep)]. *)
Definition tet_estimate (t : Timer (D := D)) (e : WaitEnv) : D :=
  let now := to_seconds (we_now e) in
  ((now - _last t) - (now - to_seconds (we_pre_sleep e)))%dbl.

(** The running mean of a list of samples as the specification words it:
    [mean' = (1/n) * ((n-1)*mean + x)], the first sample taken as it is.
    [n] samples are already in [mean]. *)
Fixpoint running_mean (n : Z) (mean : D) (xs : list D) : D :=
  match xs with
  | [] => mean
  | x :: xs' =>
      let n' := n + 1 in
      let mean' :=
        if n' <=? 1 then x
        else (d_of_Z 1 / d_of_Z n' * (d_of_Z (n' - 1) * mean + x))%dbl in
      running_mean n' mean' xs'
  end.

End Tet.

(** ** Predicates on states *)

(** A normalised [timespec] that fits its fields. *)
Definition timespec_ok (ts : timespec.t) : Prop :=
  LONG_MIN <= timespec.tv_sec ts <= LONG_MAX /\
  0 <= timespec.tv_nsec ts < NSEC_PER_SEC.

(** ** The other methods of the class *)

Section OtherMethods.

Context {D : Type} {AD : Arith D}.

Variable ENABLE_RT_SCHEDULER : bool.
Variable EnableStats : bool.

(** [std::to_string] on a [double], of the C++ library. *)
Variable to_string : D -> string.

(** The destructor: [~Timer() { stop(); }]. *)
Definition Timer_dtor (t : Timer (D := D)) (os : OS)
    : outcome unit * Timer * OS :=
  stop t os.

(** [enable_rt_scheduler]: [ret] is what [sched_setscheduler] returns and
    [err] the text of [strerror(errno)]. *)
Definition enable_rt_scheduler (t : Timer (D := D)) (ret : Z) (err : string)
    : outcome unit * Timer :=
  if ENABLE_RT_SCHEDULER then
    if ret =? -1 then (Throw ("Failed to set scheduler: " +:+ err), t)
    else (Return tt, t)
  else (Throw "Real-time scheduler not enabled in this build", t).

(** [wait_throw]: an exception of [wait] goes through; a classification
    other than [TIMER_OK] becomes an exception. *)
Definition wait_throw (t : Timer (D := D)) (e : WaitEnv)
    : outcome unit * Timer :=
  match wait ENABLE_RT_SCHEDULER EnableStats t e with
  | (Throw message, t') => (Throw message, t')
  | (Return TIMER_ERR_SIGNAL_LATE, t') =>
      (Throw "Timer: signal was late", t')
  | (Return TIMER_ERR_MAX_WAIT_EXCEEDED, t') =>
      (Throw ("Timer: cycle time " +:+ to_string (_dt t') +:+
              " exceeded maximum: " +:+ to_string (_max_wait t') +:+
              " sec"), t')
  | (Return TIMER_ERR_INTERRUPTED, t') =>
      (Throw "Timer: clock_nanosleep interrupted by signal", t')
  | (Return TIMER_OK, t') => (Return tt, t')
  end.

End OtherMethods.

(** ** What a caller reads in a loop *)

Section Trace.

Context {D : Type} {AD : Arith D}.

Variable ENABLE_RT_SCHEDULER : bool.
Variable EnableStats : bool.

(** The values [dt()] returns after each call of a loop of [wait] calls. *)
Fixpoint dt_trace (t : Timer (D := D)) (es : list WaitEnv) : list D :=
  match es with
  | [] => []
  | e :: es' =>
      let t1 := (wait ENABLE_RT_SCHEDULER EnableStats t e).2 in
      dt t1 :: dt_trace t1 es'
  end.

End Trace.

(** ** The accumulator and the cycle times of a loop *)

Section CountedTrace.

Context {D : Type} {AD : Arith D}.

Variable ENABLE_RT_SCHEDULER : bool.

(** The cycle times of the calls of a loop whose blocking call is classified
    [TIMER_OK], statistics compiled in. *)
Fixpoint counted_trace (t : Timer (D := D)) (es : list WaitEnv) : list D :=
  match es with
  | [] => []
  | e :: es' =>
      let t1 := (wait ENABLE_RT_SCHEDULER true t e).2 in
      if TimerErrorType_eqb (sleep_class ENABLE_RT_SCHEDULER (we_sleep_ret e))
           TIMER_OK
      then dt t1 :: counted_trace t1 es'
      else counted_trace t1 es'
  end.

End CountedTrace.

(** [m] lies between [a] and [b], in the order of binary64. *)
Definition between (a b m : float) : bool :=
  andb (PrimFloat.leb (std_min a b) m) (PrimFloat.leb m (std_max a b)).

(** In a loop of [wait] calls, statistics compiled in: every call that runs
    the recursive branch of [update_stats] (the sample is counted and it is
    not the first one counted) leaves in [_mean] a value between the mean it
    found and the sample. *)
Fixpoint mean_updates_between (rt : bool) (t : Timer (D := float))
    (es : list WaitEnv) : bool :=
  match es with
  | [] => true
  | e :: es' =>
      let t1 := (wait rt true t e).2 in
      andb
        (if andb (TimerErrorType_eqb (sleep_class rt (we_sleep_ret e)) TIMER_OK)
                 (2 <=? _n t1)
         then between (_mean t) (dt t1) (_mean t1)
         else true)
        (mean_updates_between rt t1 es')
  end.



(** * Properties *)

(** ** Machine integers *)

Lemma wrap_u64_small (z : Z) : 0 <= z < 2 ^ 64 -> wrap_u64 z = z.
Proof. intros H. unfold wrap_u64. apply Z.mod_small. exact H. Qed.

Lemma wrap_u64_range (z : Z) : 0 <= wrap_u64 z < 2 ^ 64.
Proof. unfold wrap_u64. apply Z.mod_pos_bound. lia. Qed.

Lemma wrap_s64_small (z : Z) : - 2 ^ 63 <= z < 2 ^ 63 -> wrap_s64 z = z.
Proof.
  intros H. unfold wrap_s64.
  rewrite Z.mod_small by lia. lia.
Qed.

(** Adding to the unsigned image of a signed value and converting back is
    the signed sum, when that sum is representable. *)
Lemma wrap_s64_u64_add (a q : Z) :
  - 2 ^ 63 <= a + q < 2 ^ 63 ->
  wrap_s64 (wrap_u64 (wrap_u64 a + q)) = a + q.
Proof.
  intros H. unfold wrap_s64, wrap_u64.
  assert (HM : 2 ^ 64 <> 0) by lia.
  rewrite (Z.add_mod_idemp_l (a mod 2 ^ 64 + q) (2 ^ 63)) by exact HM.
  rewrite <- Z.add_assoc.
  rewrite (Z.add_mod_idemp_l a (q + 2 ^ 63)) by exact HM.
  rewrite Z.mod_small by lia. lia.
Qed.

Lemma TimerErrorType_eqb_eq (a b : TimerErrorType) :
  TimerErrorType_eqb a b = true <-> a = b.
Proof. destruct a, b; simpl; split; congruence. Qed.

(** ** What the methods leave untouched *)

Section Frame.

Context {D : Type} {AD : Arith D}.
Variables rt st : bool.

Implicit Types (t : Timer (D := D)) (e : WaitEnv) (os : OS) (x : D).

(** [update_stats] writes [_n], [_mean], [_tet] and [_sd] only. *)
Lemma update_stats_interval x t : _interval (update_stats x t) = _interval t.
Proof. unfold update_stats; simpl; destruct (_ <=? 1); reflexivity. Qed.
Lemma update_stats_max_wait x t : _max_wait (update_stats x t) = _max_wait t.
Proof. unfold update_stats; simpl; destruct (_ <=? 1); reflexivity. Qed.
Lemma update_stats_rep x t : _rep (update_stats x t) = _rep t.
Proof. unfold update_stats; simpl; destruct (_ <=? 1); reflexivity. Qed.
Lemma update_stats_rqtp x t : _rqtp (update_stats x t) = _rqtp t.
Proof. unfold update_stats; simpl; destruct (_ <=? 1); reflexivity. Qed.
Lemma update_stats_min x t : _min (update_stats x t) = _min t.
Proof. unfold update_stats; simpl; destruct (_ <=? 1); reflexivity. Qed.
Lemma update_stats_max x t : _max (update_stats x t) = _max t.
Proof. unfold update_stats; simpl; destruct (_ <=? 1); reflexivity. Qed.
Lemma update_stats_started x t : _started (update_stats x t) = _started t.
Proof. unfold update_stats; simpl; destruct (_ <=? 1); reflexivity. Qed.
Lemma update_stats_first x t : _first (update_stats x t) = _first t.
Proof. unfold update_stats; simpl; destruct (_ <=? 1); reflexivity. Qed.
Lemma update_stats_now_ts x t : _now_ts (update_stats x t) = _now_ts t.
Proof. unfold update_stats; simpl; destruct (_ <=? 1); reflexivity. Qed.
Lemma update_stats_last x t : _last (update_stats x t) = _last t.
Proof. unfold update_stats; simpl; destruct (_ <=? 1); reflexivity. Qed.
Lemma update_stats_dt x t : _dt (update_stats x t) = _dt t.
Proof. unfold update_stats; simpl; destruct (_ <=? 1); reflexivity. Qed.

Lemma update_stats_n x t : _n (update_stats x t) = wrap_u64 (_n t + 1).
Proof. unfold update_stats; simpl; destruct (_ <=? 1); reflexivity. Qed.

End Frame.

Create Rewrite HintDb timer.
#[export] Hint Rewrite
  @update_stats_interval @update_stats_max_wait @update_stats_rep
  @update_stats_rqtp @update_stats_min @update_stats_max
  @update_stats_started @update_stats_first @update_stats_now_ts
  @update_stats_last @update_stats_dt @update_stats_n : timer.

(** Unfolds a [wait] on a started timer and splits on the build variant,
    on [_first] and on the classification of the blocking call. *)
Ltac wait_cases Hs :=
  unfold wait; rewrite Hs; simpl;
  repeat match goal with
    | |- context [if ?b then _ else _] =>
        match b with
        | d_ltb _ _ => fail 1
        | _ => destruct b eqn:?; simpl
        end
    end;
  autorewrite with timer; simpl.

Section Methods.

Context {D : Type} {AD : Arith D}.
Variables rt st : bool.

Implicit Types (t : Timer (D := D)) (e : WaitEnv) (os : OS) (x : D).

(** A [wait] on a started timer returns a classification: the one of the
    blocking call, unless the cycle was longer than [_max_wait]. *)
Lemma wait_started t e :
  _started t = true ->
  let now := to_seconds (we_now e) in
  let dt := (now - _last t)%dbl in
  (wait rt st t e).1
  = Return (if (_max_wait t <? dt)%dbl then TIMER_ERR_MAX_WAIT_EXCEEDED
            else sleep_class rt (we_sleep_ret e))
  /\ _dt (wait rt st t e).2 = dt
  /\ _last (wait rt st t e).2 = now
  /\ _started (wait rt st t e).2 = true
  /\ _interval (wait rt st t e).2 = _interval t
  /\ _max_wait (wait rt st t e).2 = _max_wait t
  /\ _rep (wait rt st t e).2 = _rep t
  /\ _rqtp (wait rt st t e).2 = _rqtp t.
Proof.
  intros Hs now dt. subst now dt. unfold sleep_class.
  wait_cases Hs; repeat split; assumption.
Qed.

Lemma wait_not_started t e :
  _started t = false -> wait rt st t e = (Throw "Timer: not started", t).
Proof. intros H. unfold wait. rewrite H. reflexivity. Qed.

Lemma stop_eq t os :
  stop t os
  = (Return tt,
     {| _interval := _interval t; _max_wait := _max_wait t; _rep := _rep t;
        _rqtp := _rqtp t; _n := 0; _min := d_inf; _max := d_of_Z 0;
        _mean := d_of_Z 0; _sd := d_of_Z 0; _tet := d_of_Z 0;
        _started := false; _first := true; _now_ts := _now_ts t;
        _last := _last t; _dt := _dt t |},
     {| os_itimer := mk_itimerval timeval.clear timeval.clear;
        os_sigalrm := SIG_DFL |}).
Proof. reflexivity. Qed.

(** The constructor and [stop] leave the accumulator at its initial values,
    the timer not started and its next sample the first. *)
Lemma fresh_idle t : fresh t -> idle t.
Proof.
  intros [(i & m & u1 & u2 & H) | (t' & os & H)].
  - unfold Timer_ctor in H. injection H as <-. repeat split.
  - rewrite stop_eq in H. simpl in H. subst t. repeat split.
Qed.

(** A successful [start] touches only [_last], [_now_ts] and [_started]. *)
Lemma start_frame t os (se : StartEnv) t1 os1 :
  start rt t os se = (Return tt, t1, os1) ->
  _started t1 = true /\ _first t1 = _first t /\ _n t1 = _n t /\
  _min t1 = _min t /\ _max t1 = _max t /\ _mean t1 = _mean t /\
  _sd t1 = _sd t /\ _tet t1 = _tet t /\ _interval t1 = _interval t /\
  _max_wait t1 = _max_wait t /\ _rqtp t1 = _rqtp t /\ _rep t1 = _rep t /\
  _last t1 = to_seconds (se_now se).
Proof.
  unfold start. destruct rt; simpl.
  - intros H. injection H as <- <-. simpl. repeat split.
  - destruct (se_setitimer se =? 0); simpl; intros H; [|discriminate].
    injection H as <- <-. simpl. repeat split.
Qed.

End Methods.

(** ** The claims *)

Section Claims.

Context {D : Type} {AD : Arith D}.

Implicit Types (t : Timer (D := D)) (e : WaitEnv) (os : OS) (x : D).

(** Every method leaves the configuration ([_interval], [_max_wait], [_rep],
    [_rqtp]) as the constructor set it. *)
Lemma step_config rt st (s : Timer (D := D) * OS) (c : call) :
  let s' := step rt st s c in
  _interval s'.1 = _interval s.1 /\ _max_wait s'.1 = _max_wait s.1 /\
  _rep s'.1 = _rep s.1 /\ _rqtp s'.1 = _rqtp s.1.
Proof.
  destruct s as [t os]. destruct c as [se | | e]; simpl.
  - unfold start. destruct rt; simpl; [repeat split|].
    destruct (se_setitimer se =? 0); simpl; repeat split.
  - repeat split.
  - destruct (_started t) eqn:Hs.
    + pose proof (wait_started rt st t e Hs) as H. simpl in H. tauto.
    + rewrite wait_not_started by exact Hs. repeat split.
Qed.

Lemma run_config rt st (cs : list call) (s : Timer (D := D) * OS) :
  let s' := run rt st s cs in
  _interval s'.1 = _interval s.1 /\ _max_wait s'.1 = _max_wait s.1 /\
  _rep s'.1 = _rep s.1 /\ _rqtp s'.1 = _rqtp s.1.
Proof.
  revert s. induction cs as [|c cs IH]; intros s; simpl.
  - repeat split.
  - specialize (IH (step rt st s c)). simpl in IH.
    pose proof (step_config rt st s c) as H. simpl in H.
    destruct IH as (-> & -> & -> & ->). exact H.
Qed.

(** Whatever was called on a timer since its construction, it is idle
    whenever it is not started: only [stop] and a failed [start] lead to
    such a state, and a [wait] that throws changes nothing. *)
Lemma step_not_started_idle rt st (s : Timer (D := D) * OS) (c : call) :
  (_started s.1 = false -> idle s.1) ->
  _started (step rt st s c).1 = false -> idle (step rt st s c).1.
Proof.
  destruct s as [t os]. destruct c as [se | | e]; simpl; intros Hi.
  - unfold start. destruct rt; simpl; [discriminate|].
    destruct (se_setitimer se =? 0); simpl; [discriminate|].
    intros Hs. apply Hi in Hs. exact Hs.
  - intros _. repeat split.
  - destruct (_started t) eqn:Hs.
    + pose proof (wait_started rt st t e Hs) as (_ & _ & _ & Hs' & _).
      rewrite Hs'. discriminate.
    + rewrite wait_not_started by exact Hs. simpl. intros _.
      apply Hi. reflexivity.
Qed.

Lemma run_not_started_idle rt st (cs : list call)
    (s : Timer (D := D) * OS) :
  (_started s.1 = false -> idle s.1) ->
  _started (run rt st s cs).1 = false -> idle (run rt st s cs).1.
Proof.
  revert s. induction cs as [|c cs IH]; intros s Hi; simpl; [exact Hi|].
  apply IH. apply step_not_started_idle. exact Hi.
Qed.

Lemma not_started_idle rt st interval max_wait u_now_ts u_last os
    (cs : list call) :
  let t := (run rt st (Timer_init interval max_wait u_now_ts u_last, os) cs).1 in
  _started t = false -> idle t.
Proof.
  cbv zeta. apply run_not_started_idle. intros _. repeat split.
Qed.

(** C8: a [wait] on a timer that is not started (as the constructor and
    [stop] leave it) throws a [TimerError] whose message is
    ["Timer: not started"], and the timer is left as it was. *)
Theorem C8_wait_not_started_throws rt st t e :
  fresh t \/ _started t = false ->
  wait rt st t e = (Throw "Timer: not started", t).
Proof.
  intros [Hf | Hs]; apply wait_not_started; [|exact Hs].
  apply fresh_idle in Hf. apply Hf.
Qed.

(** C7: [stop] returns normally on every timer (one that was never started
    included), leaves the accumulator at [n = 0], [min = INFINITY],
    [max = mean = sd = tet = 0] and the timer not started, and a second
    [stop] changes nothing more, neither in the timer nor in the process
    state. *)
Theorem C7_stop_resets_and_is_idempotent t os :
  exists t' os',
    stop t os = (Return tt, t', os') /\
    _n t' = 0 /\ _min t' = d_inf /\ _max t' = d_of_Z 0 /\
    _mean t' = d_of_Z 0 /\ _sd t' = d_of_Z 0 /\ _tet t' = d_of_Z 0 /\
    _started t' = false /\
    stop t' os' = (Return tt, t', os').
Proof.
  rewrite stop_eq. eexists _, _. split; [reflexivity|].
  simpl. repeat split.
Qed.

(** C4: in both variants a [wait] on a started timer sets [_dt] to
    [now - _last] and [_last] to [now], where [now] is the reading taken
    after the blocking call, and returns [TIMER_ERR_MAX_WAIT_EXCEEDED]
    whenever [_dt > _max_wait], whatever the blocking call's own
    classification was (interrupted or late); otherwise it returns that
    classification. *)
Theorem C4_max_wait_check rt st t e :
  _started t = true ->
  let now := to_seconds (we_now e) in
  let dt := (now - _last t)%dbl in
  let '(r, t') := wait rt st t e in
  _dt t' = dt /\ _last t' = now /\
  ((_max_wait t <? dt)%dbl = true -> r = Return TIMER_ERR_MAX_WAIT_EXCEEDED) /\
  ((_max_wait t <? dt)%dbl = false ->
     r = Return (sleep_class rt (we_sleep_ret e))).
Proof.
  intros Hs now dt.
  pose proof (wait_started rt st t e Hs) as (Hr & Hdt & Hl & _).
  destruct (wait rt st t e) as [r t']. simpl in *.
  fold now dt in Hr. split; [exact Hdt|]. split; [exact Hl|].
  split; intros Hlt; rewrite Hlt in Hr; exact Hr.
Qed.

(** C6 (amended): in the fallback variant every [wait] of a timer built with
    [max_wait] blocks in [nanosleep] for [max_wait] (cut to whole
    nanoseconds).  When that call returns 0 (it ran to its end) the cycle's
    classification is [TIMER_ERR_SIGNAL_LATE] before the check against
    [_max_wait], and [wait] returns it unless [_dt > _max_wait], where it
    returns [TIMER_ERR_MAX_WAIT_EXCEEDED].  When the call was interrupted
    [wait] never returns [TIMER_ERR_SIGNAL_LATE]. *)
Theorem C6_fallback_signal_late st interval max_wait u_now_ts u_last os cs e :
  let t := (run false st (Timer_init interval max_wait u_now_ts u_last, os) cs).1 in
  let dt := (to_seconds (we_now e) - _last t)%dbl in
  _started t = true ->
  wait_blocking_call false t = nanosleep (time_to_timespec max_wait) /\
  (we_sleep_ret e = 0 ->
     sleep_class false (we_sleep_ret e) = TIMER_ERR_SIGNAL_LATE /\
     (wait false st t e).1
     = Return (if (max_wait <? dt)%dbl then TIMER_ERR_MAX_WAIT_EXCEEDED
               else TIMER_ERR_SIGNAL_LATE)) /\
  (we_sleep_ret e <> 0 ->
     sleep_class false (we_sleep_ret e) = TIMER_OK /\
     (wait false st t e).1 <> Return TIMER_ERR_SIGNAL_LATE).
Proof.
  intros t dt Hs.
  pose proof (run_config false st cs
                (Timer_init interval max_wait u_now_ts u_last, os))
    as (_ & Hmw & _ & Hrq).
  simpl in Hmw, Hrq. fold t in Hmw, Hrq.
  pose proof (wait_started false st t e Hs) as (Hr & _).
  simpl in Hr. fold dt in Hr. rewrite Hmw in Hr.
  split; [unfold wait_blocking_call; rewrite Hrq; reflexivity|].
  unfold sleep_class in *. split.
  - intros H0. rewrite H0 in *. simpl in *. split; [reflexivity|exact Hr].
  - intros Hne. rewrite Hr.
    destruct (Z.eqb_spec (we_sleep_ret e) 0) as [|_]; [contradiction|].
    split; [reflexivity|].
    destruct (max_wait <? dt)%dbl; discriminate.
Qed.

End Claims.

Lemma C8_witness :
  let e := cycle 1 1 in
  wait false true demo_timer e = (Throw "Timer: not started", demo_timer).
Proof.
  apply (C8_wait_not_started_throws false true demo_timer (cycle 1 1)).
  right. reflexivity.
Defined.

Lemma C4_witness :
  let '(r, t') := wait false true (demo_started false) (cycle 2 1) in
  _dt t' = 2%float /\ _last t' = 2%float /\
  r = Return TIMER_ERR_MAX_WAIT_EXCEEDED.
Proof.
  pose proof (C4_max_wait_check false true (demo_started false) (cycle 2 1)
                eq_refl) as H.
  cbv zeta in H.
  destruct (wait false true (demo_started false) (cycle 2 1)) as [r t'].
  destruct H as (Hdt & Hl & Hgt & _).
  split; [rewrite Hdt; vm_compute; reflexivity|].
  split; [rewrite Hl; vm_compute; reflexivity|].
  apply Hgt. vm_compute. reflexivity.
Defined.

(** C6, the claim as stated fails: [nanosleep] ran its full 1.5 s without
    the signal (it returned 0), the cycle took 1.6 s, and [wait] returns
    [TIMER_ERR_MAX_WAIT_EXCEEDED], not [TIMER_ERR_SIGNAL_LATE]. *)
Lemma C6_counterexample :
  let t := demo_started false in
  let e := {| we_pre_sleep := 0; we_sleep_ret := 0; we_now := 1600000000 |} in
  _started t = true /\
  wait_blocking_call false t = nanosleep (timespec.mk 1 500000000) /\
  we_sleep_ret e = 0 /\
  (wait false true t e).1 = Return TIMER_ERR_MAX_WAIT_EXCEEDED /\
  (wait false true t e).1 <> Return TIMER_ERR_SIGNAL_LATE.
Proof.
  vm_compute. repeat split; discriminate.
Qed.

(** [nanosleep] ran its 1.5 s and the cycle took exactly as long. *)
Lemma C6_witness :
  let t := demo_started false in
  let e := {| we_pre_sleep := 0; we_sleep_ret := 0; we_now := 1500000000 |} in
  _started t = true /\
  (wait false true t e).1 = Return TIMER_ERR_SIGNAL_LATE.
Proof.
  split; [reflexivity|].
  pose proof (C6_fallback_signal_late true 1%float 1.5%float (timespec.mk 0 0)
                0%float os_init [call_start demo_start]
                {| we_pre_sleep := 0; we_sleep_ret := 0; we_now := 1500000000 |}
                eq_refl) as (_ & H & _).
  destruct (H eq_refl) as (_ & Hr).
  exact Hr.
Defined.

(** ** The statistics accumulator *)

Section Accumulator.

Context {D : Type} {AD : Arith D}.
Variable rt : bool.

Implicit Types (t : Timer (D := D)) (e : WaitEnv) (os : OS) (x : D).

(** What [update_stats] writes to [_n], [_mean] and [_sd] depends on these
    three attributes and on the sample only. *)
Lemma update_stats_ext x t t' :
  _n t = _n t' -> _mean t = _mean t' -> _sd t = _sd t' ->
  _n (update_stats x t) = _n (update_stats x t') /\
  _mean (update_stats x t) = _mean (update_stats x t') /\
  _sd (update_stats x t) = _sd (update_stats x t').
Proof.
  intros Hn Hm Hs. unfold update_stats. simpl. rewrite Hn.
  destruct (wrap_u64 (_n t' + 1) <=? 1); simpl; rewrite ?Hm, ?Hs;
    repeat split.
Qed.

(** With statistics compiled in, a [wait] on a started timer clears
    [_first]. *)
Lemma wait_clears_first t e :
  _started t = true -> _first (wait rt true t e).2 = false.
Proof. intros Hs. wait_cases Hs; reflexivity. Qed.

(** The first sample: the accumulator is not touched. *)
Lemma wait_first_sample t e :
  _started t = true -> _first t = true ->
  let t' := (wait rt true t e).2 in
  _n t' = _n t /\ _min t' = _min t /\ _max t' = _max t /\
  _mean t' = _mean t /\ _sd t' = _sd t.
Proof.
  intros Hs Hf. unfold wait. rewrite Hs. simpl.
  destruct rt; simpl; rewrite Hf; simpl; repeat split.
Qed.

(** A later sample: [_min] and [_max] take the sample in every case,
    [update_stats] runs when the blocking call was classified [TIMER_OK]
    and only then. *)
Lemma wait_later_sample t e :
  _started t = true -> _first t = false ->
  let t' := (wait rt true t e).2 in
  let dt := (to_seconds (we_now e) - _last t)%dbl in
  _min t' = std_min (_min t) dt /\
  _max t' = std_max (_max t) dt /\
  (sleep_class rt (we_sleep_ret e) = TIMER_OK ->
     _n t' = _n (update_stats dt t) /\
     _mean t' = _mean (update_stats dt t) /\
     _sd t' = _sd (update_stats dt t)) /\
  (sleep_class rt (we_sleep_ret e) <> TIMER_OK ->
     _n t' = _n t /\ _mean t' = _mean t /\ _sd t' = _sd t).
Proof.
  intros Hs Hf. unfold wait. rewrite Hs. simpl.
  destruct (TimerErrorType_eqb (sleep_class rt (we_sleep_ret e)) TIMER_OK)
    eqn:Hc.
  - apply TimerErrorType_eqb_eq in Hc.
    destruct rt; simpl; rewrite Hf; simpl;
      rewrite update_stats_min, update_stats_max; simpl;
      (split; [reflexivity|]; split; [reflexivity|];
       split; [intros _; apply update_stats_ext; reflexivity
              |intros Hne; contradiction]).
  - assert (Hne : sleep_class rt (we_sleep_ret e) <> TIMER_OK).
    { intros He. apply TimerErrorType_eqb_eq in He. congruence. }
    destruct rt; simpl; rewrite Hf; simpl;
      (split; [reflexivity|]; split; [reflexivity|];
       split; [intros He; contradiction|intros _; repeat split]).
Qed.

(** A loop of [wait] calls keeps a started timer started. *)
Lemma wait_loop_started st (es : list WaitEnv) t :
  _started t = true -> _started (wait_loop rt st t es).2 = true.
Proof.
  revert t. induction es as [|e es IH]; intros t Hs; simpl; [exact Hs|].
  pose proof (wait_started rt st t e Hs) as (_ & _ & _ & Hs' & _).
  destruct (wait rt st t e) as [r t1]. simpl in Hs'.
  specialize (IH t1 Hs').
  destruct (wait_loop rt st t1 es) as [rs t2]. exact IH.
Qed.

Lemma wait_loop_not_first (es : list WaitEnv) t :
  _started t = true -> _first t = false ->
  _first (wait_loop rt true t es).2 = false.
Proof.
  revert t. induction es as [|e es IH]; intros t Hs Hf; simpl; [exact Hf|].
  pose proof (wait_started rt true t e Hs) as (_ & _ & _ & Hs' & _).
  pose proof (wait_clears_first t e Hs) as Hf'.
  destruct (wait rt true t e) as [r t1]. simpl in Hs', Hf'.
  specialize (IH t1 Hs' Hf').
  destruct (wait_loop rt true t1 es) as [rs t2]. exact IH.
Qed.

Lemma count_ok_cons e (es : list WaitEnv) :
  count_ok rt (e :: es)
  = (if decide (sleep_class rt (we_sleep_ret e) = TIMER_OK) then 1 else 0)
    + count_ok rt es.
Proof.
  unfold count_ok. rewrite filter_cons.
  destruct (decide (sleep_class rt (we_sleep_ret e) = TIMER_OK)); simpl; lia.
Qed.

Lemma count_ok_bounds (es : list WaitEnv) :
  0 <= count_ok rt es <= Z.of_nat (length es).
Proof.
  unfold count_ok. pose proof (length_filter
    (fun e => sleep_class rt (we_sleep_ret e) = TIMER_OK) es). lia.
Qed.

(** After the first sample, [_n] grows by one (modulo 2^64) with each cycle
    whose blocking call is classified [TIMER_OK]. *)
Lemma wait_loop_n (es : list WaitEnv) t :
  _started t = true -> _first t = false -> 0 <= _n t < 2 ^ 64 ->
  _n (wait_loop rt true t es).2 = wrap_u64 (_n t + count_ok rt es).
Proof.
  revert t. induction es as [|e es IH]; intros t Hs Hf Hn.
  - simpl. unfold count_ok. simpl. rewrite Z.add_0_r.
    symmetry. apply wrap_u64_small. exact Hn.
  - simpl.
    pose proof (wait_started rt true t e Hs) as (_ & _ & _ & Hs' & _).
    pose proof (wait_clears_first t e Hs) as Hf'.
    pose proof (wait_later_sample t e Hs Hf) as (_ & _ & Hok & Hno).
    destruct (wait rt true t e) as [r t1]. simpl in Hs', Hf', Hok, Hno.
    rewrite count_ok_cons.
    destruct (decide (sleep_class rt (we_sleep_ret e) = TIMER_OK)) as [Hc|Hc].
    + destruct (Hok Hc) as (Hn1 & _). rewrite update_stats_n in Hn1.
      assert (Hr : 0 <= _n t1 < 2 ^ 64)
        by (rewrite Hn1; apply wrap_u64_range).
      specialize (IH t1 Hs' Hf' Hr).
      destruct (wait_loop rt true t1 es) as [rs t2]. simpl in *.
      rewrite IH, Hn1. unfold wrap_u64.
      rewrite Z.add_mod_idemp_l by lia. f_equal. lia.
    + destruct (Hno Hc) as (Hn1 & _).
      assert (Hr : 0 <= _n t1 < 2 ^ 64) by (rewrite Hn1; exact Hn).
      specialize (IH t1 Hs' Hf' Hr).
      destruct (wait_loop rt true t1 es) as [rs t2]. simpl in *.
      rewrite IH, Hn1. f_equal.
Qed.

End Accumulator.

Section AccumulatorClaims.

Context {D : Type} {AD : Arith D}.

Implicit Types (t : Timer (D := D)) (e : WaitEnv) (os : OS) (x : D).

(** C2: with statistics compiled in, the first [wait] after the start of an
    idle timer (one just constructed or stopped: [fresh_idle],
    [not_started_idle]) leaves [_n], [_min], [_max],
    [_mean] and [_sd] as they were.  Every later [wait] sets [_min] and
    [_max] to [std::min(_min, _dt)] and [std::max(_max, _dt)] whatever the
    classification of the cycle; it runs [update_stats(_dt)] (which counts
    the sample and updates [_mean] and [_sd]) when the classification of the
    blocking call, before the check against [_max_wait], is [TIMER_OK], and
    leaves [_n], [_mean] and [_sd] alone otherwise. *)
Theorem C2_stats_update_policy rt t0 os (se : StartEnv) t1 os1 e0
    (es : list WaitEnv) e :
  idle t0 ->
  start rt t0 os se = (Return tt, t1, os1) ->
  let ta := (wait rt true t1 e0).2 in
  let tb := (wait_loop rt true ta es).2 in
  let tc := (wait rt true tb e).2 in
  let dt := (to_seconds (we_now e) - _last tb)%dbl in
  (_n ta = _n t1 /\ _min ta = _min t1 /\ _max ta = _max t1 /\
   _mean ta = _mean t1 /\ _sd ta = _sd t1) /\
  _min tc = std_min (_min tb) dt /\
  _max tc = std_max (_max tb) dt /\
  (sleep_class rt (we_sleep_ret e) = TIMER_OK ->
     _n tc = wrap_u64 (_n tb + 1) /\
     _n tc = _n (update_stats dt tb) /\
     _mean tc = _mean (update_stats dt tb) /\
     _sd tc = _sd (update_stats dt tb)) /\
  (sleep_class rt (we_sleep_ret e) <> TIMER_OK ->
     _n tc = _n tb /\ _mean tc = _mean tb /\ _sd tc = _sd tb).
Proof.
  intros (_ & Hf0 & _) Hstart ta tb tc dt.
  apply start_frame in Hstart as (Hs1 & Hf1 & _).
  rewrite Hf0 in Hf1.
  split; [exact (wait_first_sample rt t1 e0 Hs1 Hf1)|].
  assert (Hsa : _started ta = true)
    by (apply (wait_started rt true t1 e0 Hs1)).
  assert (Hfa : _first ta = false) by (apply wait_clears_first; exact Hs1).
  assert (Hsb : _started tb = true) by (apply wait_loop_started; exact Hsa).
  assert (Hfb : _first tb = false)
    by (apply wait_loop_not_first; assumption).
  pose proof (wait_later_sample rt tb e Hsb Hfb) as (Hmin & Hmax & Hok & Hno).
  fold tc dt in Hmin, Hmax, Hok, Hno.
  split; [exact Hmin|]. split; [exact Hmax|]. split; [|exact Hno].
  intros Hc. destruct (Hok Hc) as (Hn & Hm & Hsd).
  split; [rewrite Hn; apply update_stats_n|]. repeat split; assumption.
Qed.

(** C10: with statistics compiled in, after the start of an idle timer (one
    just constructed or stopped) and a loop of [wait] calls, [_n] (and the
    entry ["n"] of [stats()], its conversion to [double]) is the number of
    cycles, the first one left out, whose blocking call was classified
    [TIMER_OK]; it is smaller than the number of [wait] calls. *)
Theorem C10_n_counts_ok_cycles rt t0 os (se : StartEnv) t1 os1
    (es : list WaitEnv) :
  idle t0 ->
  start rt t0 os se = (Return tt, t1, os1) ->
  Z.of_nat (length es) <= 2 ^ 64 ->
  let t' := (wait_loop rt true t1 es).2 in
  let k := count_ok rt (tail es) in
  _n t' = k /\
  (exists m, stats true t' = Return m /\ m !! "n" = Some (d_of_Z k)) /\
  (es <> [] -> _n t' < Z.of_nat (length es)).
Proof.
  intros (_ & Hf0 & Hn0 & _) Hstart Hlen t' k.
  apply start_frame in Hstart as (Hs1 & Hf1 & Hn1 & _).
  rewrite Hf0 in Hf1. rewrite Hn0 in Hn1.
  assert (Hn : _n t' = k).
  { subst t' k. destruct es as [|e0 es']; simpl; [exact Hn1|].
    pose proof (wait_first_sample rt t1 e0 Hs1 Hf1) as (Hna & _).
    pose proof (wait_started rt true t1 e0 Hs1) as (_ & _ & _ & Hsa & _).
    pose proof (wait_clears_first rt t1 e0 Hs1) as Hfa.
    destruct (wait rt true t1 e0) as [r ta]. simpl in Hna, Hsa, Hfa.
    assert (Hra : 0 <= _n ta < 2 ^ 64) by (rewrite Hna, Hn1; lia).
    pose proof (wait_loop_n rt es' ta Hsa Hfa Hra) as Hl.
    destruct (wait_loop rt true ta es') as [rs tb]. simpl in *.
    rewrite Hl, Hna, Hn1. apply wrap_u64_small.
    pose proof (count_ok_bounds rt es'). lia. }
  split; [exact Hn|]. split.
  - unfold stats. eexists. split; [reflexivity|]. rewrite Hn. reflexivity.
  - intros Hne. rewrite Hn. subst k.
    destruct es as [|e0 es']; [contradiction|]. simpl.
    pose proof (count_ok_bounds rt es'). lia.
Qed.

End AccumulatorClaims.

Lemma demo_timer_idle : idle demo_timer.
Proof. repeat split. Qed.

(** Three cycles of one second in the fallback build, the last one not
    interrupted by the signal. *)
Lemma C2_witness :
  let ta := (wait false true (demo_started false) (cycle 1 1)).2 in
  let tb := (wait_loop false true ta [cycle 2 1]).2 in
  let tc := (wait false true tb (cycle 3 0)).2 in
  (_n ta = 0 /\ _min ta = infinity /\ _max ta = 0%float /\
   _mean ta = 0%float /\ _sd ta = 0%float) /\
  _min tc = 1%float /\ _max tc = 1%float /\
  _n tc = 1 /\ _mean tc = 1%float /\ _sd tc = 0%float.
Proof.
  pose proof (C2_stats_update_policy false demo_timer os_init demo_start
                (demo_started false) _ (cycle 1 1) [cycle 2 1] (cycle 3 0)
                demo_timer_idle eq_refl)
    as (H1 & Hmin & Hmax & _ & Hno).
  cbv zeta. split; [exact H1|].
  split; [rewrite Hmin; vm_compute; reflexivity|].
  split; [rewrite Hmax; vm_compute; reflexivity|].
  destruct Hno as (Hn & Hm & Hs); [vm_compute; discriminate|].
  rewrite Hn, Hm, Hs. vm_compute. repeat split.
Defined.

(** C2, the claim as stated fails: [start] does not touch [_first], so the
    first [wait] after a [start] on a timer that is running is a later
    sample.  Two cycles of one second (one sample counted), a second [start]
    at 2 s with no [stop] before it, and a cycle ending at 4 s: that first
    [wait] after [start] counts its cycle time of 2 s and moves [_max],
    [_mean] and [_sd]. *)
Lemma C2_counterexample :
  let t := (wait_loop false true (demo_started false)
              [cycle 1 1; cycle 2 1]).2 in
  let se := {| se_now := 2 * NSEC_PER_SEC; se_clock := timespec.mk 2 0;
               se_setitimer := 0; se_strerror := "" |} in
  let restarted := start false t os_init se in
  let t1 := restarted.1.2 in
  let t' := (wait false true t1 (cycle 4 1)).2 in
  restarted.1.1 = Return tt /\
  (_n t1 = 1 /\ _min t1 = 1%float /\ _max t1 = 1%float /\
   _mean t1 = 1%float /\ _sd t1 = 0%float) /\
  (_n t' = 2 /\ _min t' = 1%float /\ _max t' = 2%float /\
   _mean t' = 1.5%float /\ _sd t' = PrimFloat.sqrt 0.5).
Proof. vm_compute. repeat split. Qed.

(** Four cycles, the third one not interrupted by the signal: two of the
    three cycles after the first are classified [TIMER_OK]. *)
Lemma C10_witness :
  let es := [cycle 1 1; cycle 2 1; cycle 3 0; cycle 4 1] in
  let t' := (wait_loop false true (demo_started false) es).2 in
  _n t' = 2 /\
  (exists m, stats true t' = Return m /\ m !! "n" = Some 2%float) /\
  _n t' < 4.
Proof.
  pose proof (C10_n_counts_ok_cycles false demo_timer os_init demo_start
                (demo_started false) _
                [cycle 1 1; cycle 2 1; cycle 3 0; cycle 4 1]
                demo_timer_idle eq_refl) as H.
  cbv zeta in H. destruct H as (Hn & Hm & Hlt); [vm_compute; discriminate|].
  cbv zeta. split; [exact Hn|]. split; [exact Hm|].
  apply Hlt. discriminate.
Defined.

(** ** The absolute deadline *)

Section Deadline.

Context {D : Type} {AD : Arith D}.

Implicit Types (t : Timer (D := D)) (e : WaitEnv) (os : OS)
  (ts : timespec.t).

(** [timespec_add_interval] adds the interval exactly and normalises, when
    the interval is not negative and nothing overflows. *)
Lemma timespec_add_interval_exact t ts :
  timespec_ok ts ->
  0 <= interval_ns t <= LONG_MAX - NSEC_PER_SEC ->
  timespec.to_ns ts + interval_ns t < 2 ^ 63 * NSEC_PER_SEC ->
  let ts' := timespec_add_interval t ts in
  timespec.to_ns ts' = timespec.to_ns ts + interval_ns t /\ timespec_ok ts'.
Proof.
  unfold timespec_ok, timespec_add_interval, timespec.to_ns, LONG_MIN,
    LONG_MAX, NSEC_PER_SEC.
  destruct ts as [sec nsec]. simpl.
  set (dns := interval_ns t). intros (Hsec & Hnsec) Hd Hfit.
  assert (Hsum : wrap_s64 (nsec + dns) = nsec + dns)
    by (apply wrap_s64_small; lia).
  rewrite Hsum.
  assert (Hu : wrap_u64 (nsec + dns) = nsec + dns)
    by (apply wrap_u64_small; lia).
  rewrite Hu.
  pose proof (Z.div_mod (nsec + dns) 1000000000 ltac:(lia)) as Hdm.
  pose proof (Z.mod_pos_bound (nsec + dns) 1000000000 ltac:(lia)) as Hm.
  assert (Hq : 0 <= (nsec + dns) / 1000000000)
    by (apply Z.div_pos; lia).
  rewrite wrap_s64_u64_add by lia.
  rewrite wrap_s64_small by lia.
  lia.
Qed.

Lemma interval_ns_ext t t' :
  _interval t = _interval t' -> interval_ns t = interval_ns t'.
Proof. unfold interval_ns. intros ->. reflexivity. Qed.

Lemma timespec_add_interval_ext t t' ts :
  _interval t = _interval t' ->
  timespec_add_interval t ts = timespec_add_interval t' ts.
Proof.
  intros H. unfold timespec_add_interval.
  rewrite (interval_ns_ext t t' H). reflexivity.
Qed.

(** In the absolute-clock build a [wait] on a started timer moves the
    deadline by one interval, whatever the blocking call returned and
    whatever the clock reads. *)
Lemma wait_rt_now_ts st t e :
  _started t = true ->
  _now_ts (wait true st t e).2 = timespec_add_interval t (_now_ts t).
Proof.
  intros Hs. wait_cases Hs; apply timespec_add_interval_ext; reflexivity.
Qed.

Lemma wait_loop_deadline st (es : list WaitEnv) t :
  _started t = true ->
  timespec_ok (_now_ts t) ->
  0 <= interval_ns t <= LONG_MAX - NSEC_PER_SEC ->
  timespec.to_ns (_now_ts t) + Z.of_nat (length es) * interval_ns t
    < 2 ^ 63 * NSEC_PER_SEC ->
  let t' := (wait_loop true st t es).2 in
  timespec.to_ns (_now_ts t')
  = timespec.to_ns (_now_ts t) + Z.of_nat (length es) * interval_ns t
  /\ timespec_ok (_now_ts t').
Proof.
  revert t. induction es as [|e es IH]; intros t Hs Hok Hd Hfit.
  - simpl. split; [lia|exact Hok].
  - simpl wait_loop.
    pose proof (wait_started true st t e Hs)
      as (_ & _ & _ & Hs' & Hi & _).
    pose proof (wait_rt_now_ts st t e Hs) as Hts.
    destruct (wait true st t e) as [r t1]. simpl in Hs', Hi, Hts.
    assert (Hns : interval_ns t1 = interval_ns t)
      by (apply interval_ns_ext; exact Hi).
    rewrite length_cons, Nat2Z.inj_succ in Hfit |- *.
    destruct (timespec_add_interval_exact t (_now_ts t) Hok Hd)
      as (Hto & Hok1); [nia|].
    rewrite <- Hts in Hto, Hok1.
    specialize (IH t1 Hs' Hok1).
    rewrite Hns, Hto in IH.
    destruct IH as (IH1 & IH2); [exact Hd|nia|].
    destruct (wait_loop true st t1 es) as [rs t2]. simpl in *.
    split; [rewrite IH1; lia|exact IH2].
Qed.

(** C1: in the absolute-clock build [start] arms the deadline one interval
    after the [CLOCK_REALTIME] reading, and every [wait] advances it by
    exactly one interval, whatever the clock reads when the call wakes.  So
    after [start] and [N] calls of [wait] the deadline is the one armed by
    [start] plus [N] intervals, in whole nanoseconds, with
    [0 <= tv_nsec < 10^9].  The interval is not negative and the values fit
    64 bits. *)
Theorem C1_deadline_advances_by_interval st t0 os (se : StartEnv) t1 os1
    (es : list WaitEnv) :
  start true t0 os se = (Return tt, t1, os1) ->
  let dns := interval_ns t0 in
  let N := Z.of_nat (length es) in
  timespec_ok (se_clock se) ->
  0 <= dns <= LONG_MAX - NSEC_PER_SEC ->
  timespec.to_ns (se_clock se) + (N + 1) * dns < 2 ^ 63 * NSEC_PER_SEC ->
  let t' := (wait_loop true st t1 es).2 in
  timespec.to_ns (_now_ts t1) = timespec.to_ns (se_clock se) + dns /\
  timespec.to_ns (_now_ts t') = timespec.to_ns (_now_ts t1) + N * dns /\
  0 <= timespec.tv_nsec (_now_ts t') < NSEC_PER_SEC.
Proof.
  intros Hstart dns N Hclk Hd Hfit t'.
  pose proof (start_frame true t0 os se t1 os1 Hstart)
    as (Hs1 & _ & _ & _ & _ & _ & _ & _ & Hi & _).
  assert (Hts : _now_ts t1 = timespec_add_interval t0 (se_clock se)).
  { unfold start in Hstart. simpl in Hstart. injection Hstart as <- _.
    simpl. apply timespec_add_interval_ext. reflexivity. }
  destruct (timespec_add_interval_exact t0 (se_clock se) Hclk Hd)
    as (Hto & Hok1); [fold dns; nia|].
  rewrite <- Hts in Hto, Hok1. fold dns in Hto.
  assert (Hns : interval_ns t1 = dns) by (apply interval_ns_ext; exact Hi).
  destruct (wait_loop_deadline st es t1 Hs1 Hok1) as (H1 & H2).
  - rewrite Hns. exact Hd.
  - rewrite Hns, Hto. fold N. nia.
  - rewrite Hns in H1. fold N t' in H1, H2.
    split; [exact Hto|]. split; [exact H1|]. apply H2.
Qed.

End Deadline.

(** Three cycles of the absolute-clock build, started half a second before
    a full second: the deadline is 1.5 s, then 4.5 s. *)
Lemma C1_witness :
  let se := {| se_now := 0; se_clock := timespec.mk 0 500000000;
               se_setitimer := 0; se_strerror := "" |} in
  let t1 := (start true demo_timer os_init se).1.2 in
  let t' := (wait_loop true true t1 [cycle 1 0; cycle 2 1; cycle 3 0]).2 in
  _now_ts t1 = timespec.mk 1 500000000 /\
  timespec.to_ns (_now_ts t') = 4500000000 /\
  0 <= timespec.tv_nsec (_now_ts t') < NSEC_PER_SEC.
Proof.
  cbv zeta.
  pose proof (C1_deadline_advances_by_interval true demo_timer os_init
                {| se_now := 0; se_clock := timespec.mk 0 500000000;
                   se_setitimer := 0; se_strerror := "" |}
                _ _ [cycle 1 0; cycle 2 1; cycle 3 0] eq_refl) as H.
  cbv zeta in H. destruct H as (_ & H2 & H3).
  - vm_compute. repeat split; discriminate.
  - vm_compute. split; discriminate.
  - vm_compute. reflexivity.
  - split; [vm_compute; reflexivity|]. split; [|exact H3].
    etransitivity; [exact H2|]. vm_compute. reflexivity.
Defined.

(** ** The order of binary64 values *)

Lemma SFcompare_refl (f : spec_float) :
  f <> S754_nan -> SFcompare f f = Some Eq.
Proof.
  destruct f as [s|s| |s m e]; try congruence; intros _.
  - destruct s; reflexivity.
  - destruct s; reflexivity.
  - simpl. rewrite Z.compare_refl.
    change (Pos.compare_cont Eq m m) with (Pos.compare m m).
    rewrite Pos.compare_refl. destruct s; reflexivity.
Qed.

Lemma SFleb_trans (a b c : spec_float) :
  SFleb a b = true -> SFleb b c = true -> SFleb a c = true.
Proof.
  unfold SFleb.
  destruct a as [sa|sa| |sa ma ea], b as [sb|sb| |sb mb eb],
    c as [sc|sc| |sc mc ec];
    try destruct sa; try destruct sb; try destruct sc;
    simpl; try congruence; try reflexivity;
    change (Pos.compare_cont Eq) with Pos.compare;
    repeat match goal with
      | |- context [Z.compare ?x ?y] => destruct (Z.compare_spec x y)
      | |- context [Pos.compare ?x ?y] => destruct (Pos.compare_spec x y)
      end; simpl; try congruence; try reflexivity; try lia.
Qed.

Lemma SFltb_SFleb (a b : spec_float) : SFltb a b = true -> SFleb a b = true.
Proof.
  unfold SFltb, SFleb. destruct (SFcompare a b) as [[]|]; congruence.
Qed.

Lemma SFcompare_antisym (a b : spec_float) (c : comparison) :
  SFcompare a b = Some c -> SFcompare b a = Some (CompOpp c).
Proof.
  destruct a as [sa|sa| |sa ma ea], b as [sb|sb| |sb mb eb];
    try destruct sa; try destruct sb; simpl; try congruence;
    try (intros [= <-]; reflexivity);
    change (Pos.compare_cont Eq) with Pos.compare;
    rewrite (Z.compare_antisym ea eb), (Pos.compare_antisym ma mb);
    destruct (ea ?= eb), (ma ?= mb)%positive; simpl;
    intros [= <-]; reflexivity.
Qed.

Lemma SFcompare_some (a b : spec_float) :
  a <> S754_nan -> b <> S754_nan -> exists c, SFcompare a b = Some c.
Proof.
  destruct a as [sa|sa| |sa ma ea], b as [sb|sb| |sb mb eb];
    try congruence; intros _ _; simpl; eauto;
    try destruct sa; try destruct sb; eauto.
Qed.

Lemma SFleb_total (a b : spec_float) :
  a <> S754_nan -> b <> S754_nan -> SFltb b a = false -> SFleb a b = true.
Proof.
  intros Ha Hb. unfold SFltb, SFleb.
  destruct (SFcompare_some a b Ha Hb) as [c Hc].
  rewrite (SFcompare_antisym _ _ _ Hc), Hc. destruct c; simpl; congruence.
Qed.

Lemma SFleb_not_nan (a b : spec_float) :
  SFleb a b = true -> a <> S754_nan /\ b <> S754_nan.
Proof.
  unfold SFleb. destruct a, b; simpl; try congruence; split; congruence.
Qed.

Lemma Prim2SF_nan (x : float) : Prim2SF x = S754_nan <-> is_nan x = true.
Proof.
  split.
  - intros H. destruct (is_nan x) eqn:E; [reflexivity|].
    assert (Hx : SF2Prim (Prim2SF x) = x) by apply SF2Prim_Prim2SF.
    rewrite H in Hx. rewrite <- Hx in E. vm_compute in E. congruence.
  - intros H. unfold is_nan in H. rewrite FloatAxioms.eqb_spec in H.
    unfold SFeqb in H. apply Bool.negb_true_iff in H.
    destruct (Prim2SF x) as [s|s| |s m e] eqn:E; try reflexivity; exfalso.
    + destruct s; simpl in H; congruence.
    + destruct s; simpl in H; congruence.
    + rewrite SFcompare_refl in H; congruence.
Qed.

Lemma not_nan (x : float) : is_nan x = false <-> Prim2SF x <> S754_nan.
Proof.
  rewrite Prim2SF_nan. destruct (is_nan x); split; congruence.
Qed.

Lemma leb_trans (a b c : float) :
  (a <=? b)%float = true -> (b <=? c)%float = true -> (a <=? c)%float = true.
Proof. rewrite !FloatAxioms.leb_spec. apply SFleb_trans. Qed.

Lemma leb_refl (a : float) : is_nan a = false -> (a <=? a)%float = true.
Proof.
  rewrite not_nan, FloatAxioms.leb_spec. intros H. unfold SFleb.
  rewrite SFcompare_refl; auto.
Qed.

Lemma ltb_leb (a b : float) : (a <? b)%float = true -> (a <=? b)%float = true.
Proof. rewrite FloatAxioms.ltb_spec, FloatAxioms.leb_spec. apply SFltb_SFleb. Qed.

Lemma leb_total (a b : float) :
  is_nan a = false -> is_nan b = false ->
  (b <? a)%float = false -> (a <=? b)%float = true.
Proof. rewrite !not_nan, FloatAxioms.ltb_spec, FloatAxioms.leb_spec. apply SFleb_total. Qed.

Lemma leb_not_nan (a b : float) :
  (a <=? b)%float = true -> is_nan a = false /\ is_nan b = false.
Proof. rewrite FloatAxioms.leb_spec, !not_nan. apply SFleb_not_nan. Qed.

(** ** The mean between the extremes, on binary64 *)

Section Binary64Accumulator.

Implicit Types (t : Timer (D := float)) (e : WaitEnv) (a b x : float).

Lemma std_min_cases a b : std_min a b = a \/ std_min a b = b.
Proof. unfold std_min. destruct (_ <? _)%dbl; auto. Qed.

Lemma std_max_cases a b : std_max a b = a \/ std_max a b = b.
Proof. unfold std_max. destruct (_ <? _)%dbl; auto. Qed.

Lemma std_min_le_l a b :
  is_nan a = false -> is_nan b = false -> (std_min a b <=? a)%float = true.
Proof.
  intros Ha Hb. unfold std_min. simpl.
  destruct (b <? a)%float eqn:E; [apply ltb_leb; exact E|apply leb_refl; exact Ha].
Qed.

Lemma std_min_le_r a b :
  is_nan a = false -> is_nan b = false -> (std_min a b <=? b)%float = true.
Proof.
  intros Ha Hb. unfold std_min. simpl.
  destruct (b <? a)%float eqn:E; [apply leb_refl; exact Hb|].
  apply leb_total; assumption.
Qed.

Lemma std_max_ge_l a b :
  is_nan a = false -> is_nan b = false -> (a <=? std_max a b)%float = true.
Proof.
  intros Ha Hb. unfold std_max. simpl.
  destruct (a <? b)%float eqn:E; [apply ltb_leb; exact E|apply leb_refl; exact Ha].
Qed.

Lemma std_max_ge_r a b :
  is_nan a = false -> is_nan b = false -> (b <=? std_max a b)%float = true.
Proof.
  intros Ha Hb. unfold std_max. simpl.
  destruct (a <? b)%float eqn:E; [apply leb_refl; exact Hb|].
  apply leb_total; assumption.
Qed.

Lemma std_min_not_nan a b :
  is_nan a = false -> is_nan b = false -> is_nan (std_min a b) = false.
Proof. intros Ha Hb. destruct (std_min_cases a b) as [-> | ->]; assumption. Qed.

Lemma std_max_not_nan a b :
  is_nan a = false -> is_nan b = false -> is_nan (std_max a b) = false.
Proof. intros Ha Hb. destruct (std_max_cases a b) as [-> | ->]; assumption. Qed.




(** While at most one sample is counted, the recursive branch of
    [update_stats] does not run. *)
Lemma mean_updates_between_first_count rt (es : list WaitEnv) t :
  _started t = true -> _first t = false ->
  0 <= _n t -> _n t + count_ok rt es <= 1 ->
  mean_updates_between rt t es = true.
Proof.
  revert t. induction es as [|e es IH]; intros t Hs Hf H0 H1; simpl;
    [reflexivity|].
  pose proof (wait_started rt true t e Hs) as (_ & _ & _ & Hs' & _).
  pose proof (wait_clears_first rt t e Hs) as Hf'.
  pose proof (wait_later_sample rt t e Hs Hf) as (_ & _ & Hok & Hno).
  cbv zeta in Hok, Hno. rewrite count_ok_cons in H1.
  pose proof (count_ok_bounds rt es) as Hb.
  destruct (decide (sleep_class rt (we_sleep_ret e) = TIMER_OK)) as [Hc|Hc].
  - destruct (Hok Hc) as (Hn1 & _). rewrite update_stats_n in Hn1.
    assert (Hz : _n t = 0) by lia. rewrite Hz in Hn1.
    change (wrap_u64 (0 + 1)) with 1 in Hn1.
    rewrite Hn1. rewrite Bool.andb_false_r. simpl.
    apply IH; try assumption; lia.
  - destruct (Hno Hc) as (Hn1 & _).
    assert (Hb1 : TimerErrorType_eqb (sleep_class rt (we_sleep_ret e)) TIMER_OK
                  = false).
    { destruct (TimerErrorType_eqb _ _) eqn:E; [|reflexivity].
      apply TimerErrorType_eqb_eq in E. contradiction. }
    rewrite Hb1. simpl. apply IH; try assumption; lia.
Qed.


End Binary64Accumulator.



(** C3: three interrupted cycles of one second, each entered a quarter of a
    second after the previous wake-up.  The estimate of each cycle is 0.25,
    and so is their running mean; ["tet"] of [stats()] is 0 after the second
    cycle and 0.625 after the third. *)
Lemma C3_tet_is_not_the_mean_of_the_estimates :
  let t1 := demo_started false in
  let t2 := (wait false true t1 (cycle 1 1)).2 in
  let t3 := (wait false true t2 (cycle 2 1)).2 in
  let t4 := (wait false true t3 (cycle 3 1)).2 in
  let estimates := [tet_estimate t1 (cycle 1 1); tet_estimate t2 (cycle 2 1);
                    tet_estimate t3 (cycle 3 1)] in
  estimates = [0.25; 0.25; 0.25]%float /\
  running_mean 0 0%float estimates = 0.25%float /\
  running_mean 0 0%float (tail estimates) = 0.25%float /\
  (exists m, stats true t2 = Return m /\ m !! "tet" = Some 0.25%float) /\
  (exists m, stats true t3 = Return m /\ m !! "tet" = Some 0%float) /\
  (exists m, stats true t4 = Return m /\ m !! "tet" = Some 0.625%float).
Proof.
  cbv zeta. repeat split; try (vm_compute; reflexivity);
    eexists; (split; [reflexivity|vm_compute; reflexivity]).
Qed.

(** ** Construction *)

(** C9 (amended): the constructor converts both durations and fills the
    descriptors ([it_interval] and [it_value] from the interval, [_rqtp]
    from [max_wait]), and it returns normally for every pair of durations:
    no conversion is checked for overflow or for lost precision. *)
Theorem C9_constructor_never_fails :
  forall (D : Type) (AD : Arith D) (interval max_wait : D)
         (u_now_ts : timespec.t) (u_last : D),
    exists t : Timer (D := D),
      Timer_ctor interval max_wait u_now_ts u_last = Return t /\
      _interval t = interval /\ _max_wait t = max_wait /\
      it_interval (_rep t) = time_to_timeval interval /\
      it_value (_rep t) = time_to_timeval interval /\
      _rqtp t = time_to_timespec max_wait /\
      _started t = false.
Proof.
  intros D AD interval max_wait u_now_ts u_last.
  eexists. split; [reflexivity|]. simpl. repeat split.
Qed.

(** C9, the claim as stated fails.  An interval of [2^-31] s and a maximum
    wait of [2^-30] s are below the resolution of the descriptors: both are
    converted to zero and the constructor returns. *)
Lemma C9_counterexample :
  let interval := 0x1p-31%float in
  let max_wait := 0x1p-30%float in
  (0 <? interval)%float = true /\ (0 <? max_wait)%float = true /\
  time_to_timeval interval = timeval.clear /\
  time_to_timespec max_wait = timespec.mk 0 0 /\
  Timer_ctor interval max_wait (timespec.mk 0 0) 0%float
  = Return (Timer_init interval max_wait (timespec.mk 0 0) 0%float).
Proof. vm_compute. repeat split. Qed.

(** * Further properties of the class *)

(** ** Lifecycle and process state *)

Section Lifecycle.

Context {D : Type} {AD : Arith D}.

Implicit Types (t : Timer (D := D)) (e : WaitEnv) (os : OS) (x : D).

(** In the fallback build a started timer has the interval timer armed with
    its [_rep] and the empty handler installed. *)
Lemma step_started_armed st (s : Timer (D := D) * OS) (c : call) :
  (_started s.1 = true ->
   s.2 = {| os_itimer := _rep s.1; os_sigalrm := empty_handler |}) ->
  _started (step false st s c).1 = true ->
  (step false st s c).2
  = {| os_itimer := _rep (step false st s c).1;
       os_sigalrm := empty_handler |}.
Proof.
  destruct s as [t os]. destruct c as [se | | e]; simpl; intros Hi.
  - unfold start. simpl. destruct (se_setitimer se =? 0); simpl.
    + intros _. reflexivity.
    + exact Hi.
  - discriminate.
  - destruct (_started t) eqn:Hs.
    + pose proof (wait_started false st t e Hs)
        as (_ & _ & _ & _ & _ & _ & Hrep & _).
      rewrite Hrep. intros _. apply Hi. reflexivity.
    + rewrite wait_not_started by exact Hs. simpl. rewrite Hs. discriminate.
Qed.

Lemma run_started_armed st (cs : list call) (s : Timer (D := D) * OS) :
  (_started s.1 = true ->
   s.2 = {| os_itimer := _rep s.1; os_sigalrm := empty_handler |}) ->
  _started (run false st s cs).1 = true ->
  (run false st s cs).2
  = {| os_itimer := _rep (run false st s cs).1;
       os_sigalrm := empty_handler |}.
Proof.
  revert s. induction cs as [|c cs IH]; intros s Hi; simpl; [exact Hi|].
  apply IH. apply step_started_armed. exact Hi.
Qed.

(** X1: in the fallback build, after any sequence of [start], [stop] and
    [wait] calls on a constructed timer, whenever the timer is started the
    process's interval timer is armed with the period the constructor
    computed from the interval (first expiry and period alike) and
    [SIGALRM] has the empty handler. *)
Theorem X1_started_timer_is_armed st interval max_wait u_now_ts u_last os
    (cs : list call) :
  let s := run false st (Timer_init interval max_wait u_now_ts u_last, os) cs in
  _started s.1 = true ->
  s.2 = {| os_itimer := {| it_interval := time_to_timeval interval;
                           it_value := time_to_timeval interval |};
           os_sigalrm := empty_handler |}.
Proof.
  intros s Hs. subst s.
  rewrite run_started_armed; [|discriminate|exact Hs].
  pose proof (run_config false st cs
                (Timer_init interval max_wait u_now_ts u_last, os))
    as (_ & _ & Hrep & _).
  simpl in Hrep. rewrite Hrep. reflexivity.
Qed.

(** X2: in the absolute-clock build no [start] throws, and no sequence of
    [start] and [wait] calls touches the process's interval timer or the
    disposition of [SIGALRM]; a [stop] resets both all the same. *)
Theorem X2_rt_build_process_state st t os (cs : list call) :
  Forall (fun c => c <> call_stop) cs ->
  (run true st (t, os) cs).2 = os /\
  (forall se, (start true (run true st (t, os) cs).1 os se).1.1 = Return tt) /\
  (stop (run true st (t, os) cs).1 os).2
  = {| os_itimer := mk_itimerval timeval.clear timeval.clear;
       os_sigalrm := SIG_DFL |}.
Proof.
  intros Hcs. split; [|split; [intros se; reflexivity|reflexivity]].
  revert t. induction Hcs as [|c cs Hc _ IH]; intros t; simpl; [reflexivity|].
  destruct c as [se | | e]; [| contradiction |]; simpl; apply IH.
Qed.

(** X3: in the fallback build, when [setitimer] fails [start] throws the
    text of [strerror(errno)] and leaves no trace but a new [_last]: the
    process state is as it was, a timer that was not started still refuses
    [wait], and any later [start] does what it would have done without the
    failed one. *)
Theorem X3_failed_start st t os (se : StartEnv) e :
  se_setitimer se <> 0 ->
  let '(r, t1, os1) := start false t os se in
  r = Throw (se_strerror se) /\ os1 = os /\
  _started t1 = _started t /\
  (_started t = false ->
   wait false st t1 e = (Throw "Timer: not started", t1)) /\
  (forall se', start false t1 os1 se' = start false t os se').
Proof.
  intros Hne. unfold start.
  destruct (Z.eqb_spec (se_setitimer se) 0) as [H0|_]; [contradiction|].
  simpl. split; [reflexivity|]. split; [reflexivity|].
  split; [reflexivity|]. split.
  - intros Hs. apply wait_not_started. exact Hs.
  - intros se'. destruct (se_setitimer se' =? 0); reflexivity.
Qed.

(** X4: a [start] on a timer that is running and past its first sample
    keeps the accumulator and does not ask for a new first sample: the
    next [wait] takes its cycle time, measured from the restart, into
    [_min] and [_max] like any other. *)
Theorem X4_restart_keeps_accumulator rt t os (se : StartEnv) t1 os1 e :
  _started t = true -> _first t = false ->
  start rt t os se = (Return tt, t1, os1) ->
  let t' := (wait rt true t1 e).2 in
  let dt := (to_seconds (we_now e) - to_seconds (se_now se))%dbl in
  (_n t1 = _n t /\ _min t1 = _min t /\ _max t1 = _max t /\
   _mean t1 = _mean t /\ _sd t1 = _sd t) /\
  _dt t' = dt /\
  _min t' = std_min (_min t) dt /\ _max t' = std_max (_max t) dt.
Proof.
  intros Hs Hf Hstart t' dt.
  apply start_frame in Hstart
    as (Hs1 & Hf1 & Hn & Hmin & Hmax & Hmean & Hsd & _ & _ & _ & _ & _ & Hl).
  rewrite Hf in Hf1.
  pose proof (wait_later_sample rt t1 e Hs1 Hf1) as (Hmin' & Hmax' & _).
  pose proof (wait_started rt true t1 e Hs1) as (_ & Hdt & _).
  cbv zeta in Hmin', Hmax', Hdt. rewrite Hl in Hmin', Hmax', Hdt.
  rewrite Hmin in Hmin'. rewrite Hmax in Hmax'.
  repeat split; assumption.
Qed.

(** X5: no method changes what the constructor computed: after any sequence
    of [start], [stop] and [wait] calls, in either build, [_interval],
    [_max_wait], the interval-timer descriptor and the [nanosleep] request
    are those of the construction. *)
Theorem X5_configuration_is_constant rt st interval max_wait u_now_ts u_last
    os (cs : list call) :
  let t := (run rt st (Timer_init interval max_wait u_now_ts u_last, os) cs).1 in
  _interval t = interval /\ _max_wait t = max_wait /\
  _rep t = {| it_interval := time_to_timeval interval;
              it_value := time_to_timeval interval |} /\
  _rqtp t = time_to_timespec max_wait.
Proof.
  exact (run_config rt st cs
           (Timer_init interval max_wait u_now_ts u_last, os)).
Qed.

(** Without statistics no call writes the accumulator or [_first]. *)
Lemma step_without_stats rt (s : Timer (D := D) * OS) (c : call) :
  idle (set_started false s.1) ->
  idle (set_started false (step rt false s c).1).
Proof.
  destruct s as [t os]. destruct c as [se | | e]; simpl; intros Hi.
  - unfold start. destruct rt; simpl; [exact Hi|].
    destruct (se_setitimer se =? 0); simpl; exact Hi.
  - repeat split.
  - unfold wait. destruct (_started t); simpl; [|exact Hi].
    destruct rt; simpl; exact Hi.
Qed.

Lemma run_without_stats rt (cs : list call) (s : Timer (D := D) * OS) :
  idle (set_started false s.1) ->
  idle (set_started false (run rt false s cs).1).
Proof.
  revert s. induction cs as [|c cs IH]; intros s Hi; simpl; [exact Hi|].
  apply IH. apply step_without_stats. exact Hi.
Qed.

(** X6: in a timer compiled without statistics, after any sequence of
    [start], [stop] and [wait] calls the accumulator still holds its
    initial values ([n = 0], [min = INFINITY], the rest 0), and [stats()]
    throws. *)
Theorem X6_without_stats rt interval max_wait u_now_ts u_last os
    (cs : list call) :
  let t := (run rt false (Timer_init interval max_wait u_now_ts u_last, os) cs).1 in
  _n t = 0 /\ _min t = d_inf /\ _max t = d_of_Z 0 /\ _mean t = d_of_Z 0 /\
  _sd t = d_of_Z 0 /\ _tet t = d_of_Z 0 /\ _first t = true /\
  stats false t = Throw "Timer: stats not enabled".
Proof.
  intros t.
  assert (H : idle (set_started false t)).
  { subst t. apply run_without_stats. repeat split. }
  destruct H as (_ & Hf & Hn & Hmin & Hmax & Hmean & Hsd & Htet).
  simpl in *. repeat split; assumption.
Qed.

End Lifecycle.

(** ** [wait_throw] *)

Section WaitThrow.

Context {D : Type} {AD : Arith D}.
Variable to_string : D -> string.

Implicit Types (t : Timer (D := D)) (e : WaitEnv) (os : OS) (x : D).

(** X7: [wait_throw] leaves the timer exactly as [wait] does, also when it
    throws (the cycle is measured and counted before the exception), and it
    returns normally exactly when the timer is started, the blocking call
    is classified [TIMER_OK] and the cycle is not longer than
    [_max_wait]. *)
Theorem X7_wait_throw_returns_iff_ok rt st t e :
  let dt := (to_seconds (we_now e) - _last t)%dbl in
  (wait_throw rt st to_string t e).2 = (wait rt st t e).2 /\
  ((wait_throw rt st to_string t e).1 = Return tt <->
   _started t = true /\ sleep_class rt (we_sleep_ret e) = TIMER_OK /\
   (_max_wait t <? dt)%dbl = false).
Proof.
  intros dt. unfold wait_throw.
  destruct (_started t) eqn:Hs.
  - pose proof (wait_started rt st t e Hs) as (Hr & _).
    cbv zeta in Hr. fold dt in Hr.
    destruct (wait rt st t e) as [r t']. simpl in Hr. subst r.
    destruct (_max_wait t <? dt)%dbl; simpl.
    + split; [reflexivity|]. split; [discriminate|].
      intros (_ & _ & H). discriminate.
    + destruct (sleep_class rt (we_sleep_ret e)); simpl;
        (split; [reflexivity|]);
        (split; [try discriminate; intros _; repeat split
                |try reflexivity; intros (_ & H & _); discriminate]).
  - rewrite wait_not_started by exact Hs. simpl.
    split; [reflexivity|]. split; [discriminate|].
    intros (H & _). discriminate.
Qed.

(** X8: what [wait_throw] throws on a started timer.  A cycle longer than
    [_max_wait] gives the message with the cycle time and the maximum, also
    when the blocking call was late or interrupted; otherwise a late signal
    and an interrupted sleep give their own messages.  The fallback build
    never reports an interrupted [clock_nanosleep] and the absolute-clock
    build never reports a late signal. *)
Theorem X8_wait_throw_messages rt st t e :
  _started t = true ->
  let dt := (to_seconds (we_now e) - _last t)%dbl in
  let r := (wait_throw rt st to_string t e).1 in
  ((_max_wait t <? dt)%dbl = true ->
   r = Throw ("Timer: cycle time " +:+ to_string dt +:+
              " exceeded maximum: " +:+ to_string (_max_wait t) +:+ " sec")) /\
  ((_max_wait t <? dt)%dbl = false ->
   r = if rt then
         if we_sleep_ret e =? 0 then Return tt
         else Throw "Timer: clock_nanosleep interrupted by signal"
       else
         if we_sleep_ret e =? 0 then Throw "Timer: signal was late"
         else Return tt) /\
  (rt = false -> r <> Throw "Timer: clock_nanosleep interrupted by signal") /\
  (rt = true -> r <> Throw "Timer: signal was late").
Proof.
  intros Hs dt r. subst r. unfold wait_throw.
  pose proof (wait_started rt st t e Hs) as (Hr & Hdt & _ & _ & _ & Hmw & _).
  cbv zeta in Hr, Hdt. fold dt  in Hr, Hdt.
  destruct (wait rt st t e) as [r t']. simpl in Hr, Hdt, Hmw. subst r.
  unfold sleep_class.
  destruct (_max_wait t <? dt)%dbl; simpl.
  - rewrite Hdt, Hmw. split; [reflexivity|]. split; [discriminate|].
    split; intros _; simpl; discriminate.
  - split; [discriminate|].
    destruct rt, (we_sleep_ret e =? 0); simpl;
      (split; [reflexivity|]); split; intros H; discriminate.
Qed.

End WaitThrow.

(** ** The task-execution-time attribute *)

Section TetAttribute.

Context {D : Type} {AD : Arith D}.

Implicit Types (t : Timer (D := D)) (e : WaitEnv) (os : OS) (x : D).

(** X9: with statistics compiled in, what a [wait] on a started timer
    leaves in [_tet] does not depend on what [_tet] held before: it is the
    estimate of this cycle when the cycle is the first or is not classified
    [TIMER_OK], 0 when it is the first sample counted, and otherwise
    [(1/n) * ((n-1) * estimate + dt)], the estimate of this cycle mixed with
    its cycle time. *)
Theorem X9_tet_has_no_memory rt t e (v : D) :
  _started t = true ->
  let t' := (wait rt true t e).2 in
  let dt := (to_seconds (we_now e) - _last t)%dbl in
  let n := wrap_u64 (_n t + 1) in
  _tet (wait rt true (set_tet v t) e).2 = _tet t' /\
  _tet t'
  = if negb (_first t) && TimerErrorType_eqb (sleep_class rt (we_sleep_ret e))
                            TIMER_OK
    then if n <=? 1 then d_of_Z 0
         else (d_of_Z 1 / d_of_Z n
               * (d_of_Z (wrap_u64 (n - 1)) * tet_estimate t e + dt))%dbl
    else tet_estimate t e.
Proof.
  intros Hs t' dt n. subst t' dt n. unfold wait, tet_estimate.
  rewrite Hs. simpl. rewrite Hs. simpl.
  destruct rt; simpl; destruct (_first t); simpl;
    try (split; reflexivity);
    destruct (TimerErrorType_eqb _ TIMER_OK); simpl;
    try (split; reflexivity);
    unfold update_stats; simpl;
    destruct (wrap_u64 (_n t + 1) <=? 1); simpl; split; reflexivity.
Qed.

End TetAttribute.

(** ** The accumulator's contents *)

Section Contents.

Context {D : Type} {AD : Arith D}.
Variable rt : bool.

Implicit Types (t acc : Timer (D := D)) (e : WaitEnv) (x : D).

Lemma counted_trace_length (es : list WaitEnv) t :
  (length (counted_trace rt t es) <= length es)%nat.
Proof.
  revert t. induction es as [|e es IH]; intros t; simpl; [lia|].
  destruct (TimerErrorType_eqb _ _); simpl;
    specialize (IH (wait rt true t e).2); lia.
Qed.

(** Past the first sample, a loop of [wait] calls leaves in [_n], [_mean]
    and [_sd] what [update_stats] makes of the counted cycle times. *)
Lemma wait_loop_fold (es : list WaitEnv) t acc :
  _started t = true -> _first t = false ->
  _n t = _n acc -> _mean t = _mean acc -> _sd t = _sd acc ->
  let t' := (wait_loop rt true t es).2 in
  let acc' := fold_left (fun a x => update_stats x a)
                (counted_trace rt t es) acc in
  _n t' = _n acc' /\ _mean t' = _mean acc' /\ _sd t' = _sd acc'.
Proof.
  revert t acc. induction es as [|e es IH]; intros t acc Hs Hf Hn Hm Hsd;
    simpl; [repeat split; assumption|].
  pose proof (wait_started rt true t e Hs) as (_ & Hdt & _ & Hs' & _).
  pose proof (wait_clears_first rt t e Hs) as Hf'.
  pose proof (wait_later_sample rt t e Hs Hf) as (_ & _ & Hok & Hno).
  cbv zeta in Hdt, Hok, Hno. unfold dt. rewrite Hdt.
  destruct (TimerErrorType_eqb (sleep_class rt (we_sleep_ret e)) TIMER_OK)
    eqn:Hc.
  - apply TimerErrorType_eqb_eq in Hc. destruct (Hok Hc) as (Hn1 & Hm1 & Hsd1).
    set (x := (to_seconds (we_now e) - _last t)%dbl) in *.
    destruct (update_stats_ext x t acc Hn Hm Hsd) as (En & Em & Esd).
    rewrite En in Hn1. rewrite Em in Hm1. rewrite Esd in Hsd1.
    destruct (wait rt true t e) as [r t1]. simpl in *.
    specialize (IH t1 (update_stats x acc) Hs' Hf' Hn1 Hm1 Hsd1).
    destruct (wait_loop rt true t1 es) as [rs t2]. exact IH.
  - assert (Hne : sleep_class rt (we_sleep_ret e) <> TIMER_OK).
    { intros He. apply TimerErrorType_eqb_eq in He. congruence. }
    destruct (Hno Hne) as (Hn1 & Hm1 & Hsd1).
    rewrite Hn in Hn1. rewrite Hm in Hm1. rewrite Hsd in Hsd1.
    destruct (wait rt true t e) as [r t1]. simpl in *.
    specialize (IH t1 acc Hs' Hf' Hn1 Hm1 Hsd1).
    destruct (wait_loop rt true t1 es) as [rs t2]. exact IH.
Qed.

(** Below 2^64 samples, [update_stats] counts the samples and its mean is
    the recursion [mean' = (1/n) * ((n-1) * mean + x)]. *)
Lemma update_stats_running_mean (xs : list D) acc :
  0 <= _n acc -> _n acc + Z.of_nat (length xs) < 2 ^ 64 ->
  let acc' := fold_left (fun a x => update_stats x a) xs acc in
  _n acc' = _n acc + Z.of_nat (length xs) /\
  _mean acc' = running_mean (_n acc) (_mean acc) xs.
Proof.
  revert acc. induction xs as [|x xs IH]; intros acc H0 Hlt; simpl.
  - split; [lia|reflexivity].
  - change (Z.of_nat (length (x :: xs))) with (Z.of_nat (S (length xs))) in Hlt.
    rewrite Nat2Z.inj_succ in Hlt.
    assert (Hn : _n (update_stats x acc) = _n acc + 1).
    { rewrite update_stats_n. apply wrap_u64_small. lia. }
    assert (Hm : _mean (update_stats x acc)
                 = if _n acc + 1 <=? 1 then x
                   else (d_of_Z 1 / d_of_Z (_n acc + 1)
                         * (d_of_Z (_n acc + 1 - 1) * _mean acc + x))%dbl).
    { unfold update_stats. simpl.
      rewrite (wrap_u64_small (_n acc + 1)) by lia.
      destruct (_n acc + 1 <=? 1) eqn:E; simpl; [reflexivity|].
      apply Z.leb_gt in E.
      rewrite (wrap_u64_small (_n acc + 1 - 1)) by lia. reflexivity. }
    destruct (IH (update_stats x acc)) as (IHn & IHm); [lia|lia|].
    rewrite Nat2Z.inj_succ. split; [lia|].
    rewrite IHm, Hn, Hm. reflexivity.
Qed.

(** X10: with statistics compiled in, after the start of an idle timer, its
    first [wait] and a loop of further [wait] calls, [_n], [_mean] and [_sd]
    are what [update_stats] makes, from the reset accumulator, of the cycle
    times of the cycles classified [TIMER_OK], in their order: the first
    cycle and the cycles classified otherwise leave no trace in them.
    Below 2^64 calls, [_n] is the number of those cycle times and [_mean]
    their mean by the recursion [(1/n) * ((n-1) * mean + x)], the first one
    taken as it is. *)
Theorem X10_statistics_of_the_counted_cycles t0 os (se : StartEnv) t1 os1
    e0 (es : list WaitEnv) :
  idle t0 ->
  start rt t0 os se = (Return tt, t1, os1) ->
  Z.of_nat (length es) < 2 ^ 64 ->
  let ta := (wait rt true t1 e0).2 in
  let t' := (wait_loop rt true ta es).2 in
  let xs := counted_trace rt ta es in
  let acc := fold_left (fun a x => update_stats x a) xs t0 in
  _n t' = _n acc /\ _mean t' = _mean acc /\ _sd t' = _sd acc /\
  _n t' = Z.of_nat (length xs) /\
  _mean t' = running_mean 0 (d_of_Z 0) xs.
Proof.
  intros (_ & Hf0 & Hn0 & _ & _ & Hm0 & Hsd0 & _) Hstart Hlen ta t' xs acc.
  apply start_frame in Hstart
    as (Hs1 & Hf1 & Hn1 & _ & _ & Hm1 & Hsd1 & _).
  rewrite Hf0 in Hf1.
  pose proof (wait_first_sample rt t1 e0 Hs1 Hf1)
    as (Hna & _ & _ & Hma & Hsda).
  pose proof (wait_started rt true t1 e0 Hs1) as (_ & _ & _ & Hsa & _).
  pose proof (wait_clears_first rt t1 e0 Hs1) as Hfa.
  fold ta in Hna, Hma, Hsda, Hsa, Hfa.
  destruct (wait_loop_fold es ta t0 Hsa Hfa) as (Hn & Hm & Hsd);
    [congruence|congruence|congruence|].
  fold t' xs acc in Hn, Hm, Hsd.
  pose proof (counted_trace_length es ta) as Hle. fold xs in Hle.
  destruct (update_stats_running_mean xs t0) as (Hk & Hr); [lia|lia|].
  fold acc in Hk, Hr. rewrite Hn0 in Hk, Hr. rewrite Hm0 in Hr.
  repeat split; try assumption; [lia|congruence].
Qed.

End Contents.

(** ** The extremes, on binary64 *)

Section Binary64Extremes.

Implicit Types (t : Timer (D := float)) (e : WaitEnv) (a b x : float).

Lemma wait_loop_extremes rt (es : list WaitEnv) t :
  _started t = true -> _first t = false ->
  is_nan (_min t) = false -> is_nan (_max t) = false ->
  let t' := (wait_loop rt true t es).2 in
  let xs := dt_trace rt true t es in
  Forall (fun x => is_nan x = false) xs ->
  (_min t' <=? _min t)%float = true /\ (_max t <=? _max t')%float = true /\
  Forall (fun x => (_min t' <=? x)%float = true /\
                   (x <=? _max t')%float = true) xs /\
  (_min t' = _min t \/ In (_min t') xs) /\
  (_max t' = _max t \/ In (_max t') xs).
Proof.
  revert t. induction es as [|e es IH]; intros t Hs Hf Hmin Hmax; simpl.
  - intros _. split; [apply leb_refl; exact Hmin|].
    split; [apply leb_refl; exact Hmax|].
    split; [constructor|]. split; left; reflexivity.
  - intros Hnan. apply Forall_cons in Hnan as (Hx & Hnan).
    pose proof (wait_started rt true t e Hs) as (_ & Hdt & _ & Hs' & _).
    pose proof (wait_clears_first rt t e Hs) as Hf'.
    pose proof (wait_later_sample rt t e Hs Hf) as (Hmin1 & Hmax1 & _).
    cbv zeta in Hdt, Hmin1, Hmax1. rewrite <- Hdt in Hmin1, Hmax1.
    unfold dt in *.
    destruct (wait rt true t e) as [r t1]. simpl in *.
    set (x := _dt t1) in *.
    assert (Hmin' : is_nan (_min t1) = false)
      by (rewrite Hmin1; apply std_min_not_nan; assumption).
    assert (Hmax' : is_nan (_max t1) = false)
      by (rewrite Hmax1; apply std_max_not_nan; assumption).
    destruct (IH t1 Hs' Hf' Hmin' Hmax' Hnan) as (Hl & Hu & Hall & Hi & Ha).
    destruct (wait_loop rt true t1 es) as [rs t2]. simpl in *.
    assert (Hlx : (_min t2 <=? x)%float = true).
    { apply leb_trans with (b := _min t1); [exact Hl|].
      rewrite Hmin1. apply std_min_le_r; assumption. }
    assert (Hux : (x <=? _max t2)%float = true).
    { apply leb_trans with (b := _max t1); [|exact Hu].
      rewrite Hmax1. apply std_max_ge_r; assumption. }
    split.
    { apply leb_trans with (b := _min t1); [exact Hl|].
      rewrite Hmin1. apply std_min_le_l; assumption. }
    split.
    { apply leb_trans with (b := _max t1); [|exact Hu].
      rewrite Hmax1. apply std_max_ge_l; assumption. }
    split; [constructor; [split; assumption|exact Hall]|].
    split.
    + destruct Hi as [Hi|Hi]; [|right; right; exact Hi].
      rewrite Hi, Hmin1.
      destruct (std_min_cases (_min t) x) as [-> | ->]; [left|right; left];
        reflexivity.
    + destruct Ha as [Ha|Ha]; [|right; right; exact Ha].
      rewrite Ha, Hmax1.
      destruct (std_max_cases (_max t) x) as [-> | ->]; [left|right; left];
        reflexivity.
Qed.

(** X11: on binary64, with statistics compiled in, after the start of an
    idle timer, its first [wait] and a loop of further [wait] calls none of
    whose cycle times is NaN: whatever the classifications, [_min] is below
    and [_max] is above every cycle time of the loop; [_min] is one of them,
    or still [INFINITY], and [_max] is one of them, or still 0. *)
Theorem X11_min_and_max_of_the_cycles rt t0 os (se : StartEnv) t1 os1 e0
    (es : list WaitEnv) :
  idle t0 ->
  start rt t0 os se = (Return tt, t1, os1) ->
  let ta := (wait rt true t1 e0).2 in
  let t' := (wait_loop rt true ta es).2 in
  let xs := dt_trace rt true ta es in
  Forall (fun x => is_nan x = false) xs ->
  Forall (fun x => (_min t' <=? x)%float = true /\
                   (x <=? _max t')%float = true) xs /\
  (_min t' = infinity \/ In (_min t') xs) /\
  (_max t' = 0%float \/ In (_max t') xs).
Proof.
  intros (_ & Hf0 & _ & Hmin0 & Hmax0 & _) Hstart ta t' xs Hnan.
  apply start_frame in Hstart as (Hs1 & Hf1 & _ & Hmin1 & Hmax1 & _).
  rewrite Hf0 in Hf1. rewrite Hmin0 in Hmin1. rewrite Hmax0 in Hmax1.
  pose proof (wait_first_sample rt t1 e0 Hs1 Hf1) as (_ & Hmina & Hmaxa & _).
  pose proof (wait_started rt true t1 e0 Hs1) as (_ & _ & _ & Hsa & _).
  pose proof (wait_clears_first rt t1 e0 Hs1) as Hfa.
  fold ta in Hmina, Hmaxa, Hsa, Hfa.
  rewrite Hmin1 in Hmina. rewrite Hmax1 in Hmaxa.
  destruct (wait_loop_extremes rt es ta Hsa Hfa) as (_ & _ & Hall & Hi & Ha).
  - rewrite Hmina. reflexivity.
  - rewrite Hmaxa. reflexivity.
  - exact Hnan.
  - fold t' xs in Hall, Hi, Ha. rewrite Hmina in Hi. rewrite Hmaxa in Ha.
    split; [exact Hall|]. split; assumption.
Qed.

End Binary64Extremes.

(** ** The deadline *)

Section Deadline2.

Context {D : Type} {AD : Arith D}.

Implicit Types (t : Timer (D := D)) (e : WaitEnv) (os : OS)
  (ts : timespec.t).

Lemma wrap_s64_range (z : Z) : LONG_MIN <= wrap_s64 z <= LONG_MAX.
Proof.
  unfold wrap_s64, LONG_MIN, LONG_MAX.
  pose proof (Z.mod_pos_bound (z + 2 ^ 63) (2 ^ 64) ltac:(lia)). lia.
Qed.

(** [timespec_add_interval] leaves a normalised [timespec], whatever it
    starts from and whatever the interval is. *)
Lemma timespec_add_interval_normalised t ts :
  timespec_ok (timespec_add_interval t ts).
Proof.
  unfold timespec_ok, timespec_add_interval. simpl.
  split; [apply wrap_s64_range|].
  set (r := wrap_u64 (wrap_s64 (timespec.tv_nsec ts + interval_ns t))
            mod NSEC_PER_SEC).
  assert (Hr : 0 <= r < NSEC_PER_SEC)
    by (apply Z.mod_pos_bound; unfold NSEC_PER_SEC; lia).
  rewrite wrap_s64_small; [exact Hr|].
  unfold NSEC_PER_SEC in Hr. lia.
Qed.

Lemma step_deadline_normalised st (s : Timer (D := D) * OS) (c : call) :
  timespec_ok (_now_ts s.1) ->
  timespec_ok (_now_ts (step true st s c).1).
Proof.
  destruct s as [t os]. destruct c as [se | | e]; simpl; intros Hi.
  - apply timespec_add_interval_normalised.
  - exact Hi.
  - destruct (_started t) eqn:Hs.
    + rewrite wait_rt_now_ts by exact Hs.
      apply timespec_add_interval_normalised.
    + rewrite wait_not_started by exact Hs. exact Hi.
Qed.

Lemma run_deadline_normalised st (cs : list call) (s : Timer (D := D) * OS) :
  timespec_ok (_now_ts s.1) ->
  timespec_ok (_now_ts (run true st s cs).1).
Proof.
  revert s. induction cs as [|c cs IH]; intros s Hi; simpl; [exact Hi|].
  apply IH. apply step_deadline_normalised. exact Hi.
Qed.

(** X13: in the absolute-clock build, from the first [start] on and
    through any sequence of calls, the armed deadline is a normalised
    [timespec] ([0 <= tv_nsec < 10^9], [tv_sec] a 64-bit value), whatever
    the interval (negative included) and whatever [clock_gettime] returned:
    the quotient and the remainder by [NSEC_PER_SEC] are unsigned. *)
Theorem X13_deadline_is_normalised st t os (se : StartEnv) (cs : list call) :
  timespec_ok (_now_ts (run true st (t, os) (call_start se :: cs)).1).
Proof.
  change (run true st (t, os) (call_start se :: cs))
    with (run true st (step true st (t, os) (call_start se)) cs).
  apply run_deadline_normalised. simpl.
  apply timespec_add_interval_normalised.
Qed.

End Deadline2.

(** ** Concrete runs for the further properties *)

(** The fallback build: [demo_timer] started has the interval timer armed
    with a period of one second. *)
Lemma X1_witness :
  (run false true (demo_timer, os_init) [call_start demo_start]).2
  = {| os_itimer := {| it_interval := timeval.mk 1 0;
                       it_value := timeval.mk 1 0 |};
       os_sigalrm := empty_handler |}.
Proof.
  exact (X1_started_timer_is_armed true 1%float 1.5%float (timespec.mk 0 0)
           0%float os_init [call_start demo_start] eq_refl).
Defined.

(** The absolute-clock build: a [start] and two cycles leave the process
    state alone. *)
Lemma X2_witness :
  (run true true (demo_timer, os_init)
     [call_start demo_start; call_wait (cycle 1 0); call_wait (cycle 2 0)]).2
  = os_init.
Proof.
  apply (X2_rt_build_process_state true demo_timer os_init
           [call_start demo_start; call_wait (cycle 1 0);
            call_wait (cycle 2 0)]).
  repeat constructor; discriminate.
Defined.

(** [setitimer] fails with [EINVAL]. *)
Lemma X3_witness :
  let se := {| se_now := 0; se_clock := timespec.mk 0 0;
               se_setitimer := -1; se_strerror := "Invalid argument" |} in
  (start false demo_timer os_init se).1.1 = Throw "Invalid argument" /\
  (start false demo_timer os_init se).2 = os_init.
Proof.
  pose proof (X3_failed_start true demo_timer os_init
                {| se_now := 0; se_clock := timespec.mk 0 0;
                   se_setitimer := -1; se_strerror := "Invalid argument" |}
                (cycle 1 1)) as H.
  cbv zeta.
  destruct (start false demo_timer os_init
              {| se_now := 0; se_clock := timespec.mk 0 0;
                 se_setitimer := -1; se_strerror := "Invalid argument" |})
    as [[r t1] os1].
  destruct H as (Hr & Hos & _); [discriminate|].
  split; [exact Hr|exact Hos].
Defined.

(** Two cycles of one second, a restart at 2 s and a cycle ending at 4 s:
    the cycle after the restart lasts two seconds and raises [_max]. *)
Lemma X4_witness :
  let t := (wait_loop false true (demo_started false)
              [cycle 1 1; cycle 2 1]).2 in
  let se := {| se_now := 2 * NSEC_PER_SEC; se_clock := timespec.mk 2 0;
               se_setitimer := 0; se_strerror := "" |} in
  let t1 := (start false t os_init se).1.2 in
  let t' := (wait false true t1 (cycle 4 1)).2 in
  _n t1 = 1 /\ _dt t' = 2%float /\ _min t' = 1%float /\ _max t' = 2%float.
Proof.
  cbv zeta.
  pose proof (X4_restart_keeps_accumulator false
                (wait_loop false true (demo_started false)
                   [cycle 1 1; cycle 2 1]).2 os_init
                {| se_now := 2 * NSEC_PER_SEC; se_clock := timespec.mk 2 0;
                   se_setitimer := 0; se_strerror := "" |}
                _ _ (cycle 4 1) eq_refl eq_refl eq_refl) as H.
  cbv zeta in H. destruct H as ((Hn & _) & Hdt & Hmin & Hmax).
  split; [etransitivity; [exact Hn|vm_compute; reflexivity]|].
  split; [etransitivity; [exact Hdt|vm_compute; reflexivity]|].
  split; [etransitivity; [exact Hmin|vm_compute; reflexivity]|].
  etransitivity; [exact Hmax|vm_compute; reflexivity].
Defined.

(** A cycle that is late and too long: the message is the one of the
    maximum. *)
Lemma X8_witness :
  (wait_throw false true (fun _ : float => "?") (demo_started false)
     {| we_pre_sleep := 0; we_sleep_ret := 0; we_now := 1600000000 |}).1
  = Throw "Timer: cycle time ? exceeded maximum: ? sec".
Proof.
  pose proof (X8_wait_throw_messages (fun _ : float => "?") false true
                (demo_started false)
                {| we_pre_sleep := 0; we_sleep_ret := 0;
                   we_now := 1600000000 |} eq_refl) as (H & _).
  apply H. vm_compute. reflexivity.
Defined.

(** The third cycle of [cycle]: the estimate is 0.25 and the cycle time 1,
    two samples are counted: [_tet] is [0.5 * (0.25 + 1)], whatever
    it held. *)
Lemma X9_witness :
  let t := (wait_loop false true (demo_started false)
              [cycle 1 1; cycle 2 1]).2 in
  _tet (wait false true (set_tet 1000%float t) (cycle 3 1)).2 = 0.625%float.
Proof.
  cbv zeta.
  pose proof (X9_tet_has_no_memory false
                (wait_loop false true (demo_started false)
                   [cycle 1 1; cycle 2 1]).2 (cycle 3 1) 1000%float eq_refl)
    as (H1 & H2).
  etransitivity; [exact H1|]. etransitivity; [exact H2|].
  vm_compute. reflexivity.
Defined.

(** Four cycles in the fallback build, the third one not interrupted by the
    signal: the cycles after the first last 1, 2 and 1 seconds, two of them
    are counted. *)
Lemma X10_witness :
  let ta := (wait false true (demo_started false) (cycle 1 1)).2 in
  let es := [cycle 2 1; cycle 4 0; cycle 5 1; cycle 8 1] in
  let t' := (wait_loop false true ta es).2 in
  counted_trace false ta es = [1; 1; 3]%float /\
  _n t' = 3 /\
  _mean t' = running_mean 0 0%float [1; 1; 3]%float.
Proof.
  cbv zeta.
  pose proof (X10_statistics_of_the_counted_cycles false demo_timer os_init
                demo_start (demo_started false) _ (cycle 1 1)
                [cycle 2 1; cycle 4 0; cycle 5 1; cycle 8 1]
                demo_timer_idle eq_refl) as H.
  cbv zeta in H. destruct H as (_ & _ & _ & Hn & Hm); [vm_compute; reflexivity|].
  split; [vm_compute; reflexivity|].
  split; [etransitivity; [exact Hn|vm_compute; reflexivity]|].
  etransitivity; [exact Hm|]. vm_compute. reflexivity.
Defined.

(** The same cycles: the cycle times are 1, 2, 1 and 3 seconds. *)
Lemma X11_witness :
  let ta := (wait false true (demo_started false) (cycle 1 1)).2 in
  let es := [cycle 2 1; cycle 4 0; cycle 5 1; cycle 8 1] in
  let t' := (wait_loop false true ta es).2 in
  dt_trace false true ta es = [1; 2; 1; 3]%float /\
  _min t' = 1%float /\ _max t' = 3%float /\
  In (_min t') (dt_trace false true ta es) /\
  In (_max t') (dt_trace false true ta es).
Proof.
  cbv zeta.
  pose proof (X11_min_and_max_of_the_cycles false demo_timer os_init
                demo_start (demo_started false) _ (cycle 1 1)
                [cycle 2 1; cycle 4 0; cycle 5 1; cycle 8 1]
                demo_timer_idle eq_refl) as H.
  cbv zeta in H. destruct H as (_ & Hi & Ha); [repeat constructor|].
  split; [vm_compute; reflexivity|].
  split; [vm_compute; reflexivity|].
  split; [vm_compute; reflexivity|].
  split.
  - destruct Hi as [Hi|Hi]; [vm_compute in Hi; discriminate|exact Hi].
  - destruct Ha as [Ha|Ha]; [vm_compute in Ha; discriminate|exact Ha].
Defined.
